(** * kubelet-stats-exporter: the scrape-and-aggregate pipeline of
      [kubelet_stats_exporter/collector.py]

    A shallow embedding of [KubeletCollector] and the properties of its
    scrape cycle.  Python values that come out of [response.json()] are
    modelled by the type [json]; Python exceptions by the error half of
    [result]; the collector object, which [collect] and
    [scrape_node_metrics] mutate in place, by an explicit [world] that is
    threaded through every call and survives a raised exception. *)

From Stdlib Require Import ZArith QArith List String Ascii Bool Lia.
Import ListNotations.
Local Open Scope string_scope.
Local Open Scope list_scope.
#[local] Set Warnings "-register-all".

(** ** Python values and exceptions *)

(** What [json.loads] can return.  Numbers are rationals: the integer and
    decimal literals of a JSON document, with [/] computed exactly (the
    rounding and the range of Python floats are not modelled).  A JSON object
    is the insertion-ordered list of its (already distinct) keys. *)
Inductive json : Type :=
| JNull
| JBool (b : bool)
| JNum (q : Q)
| JStr (s : string)
| JArr (items : list json)
| JObj (fields : list (string * json)).

(** The exception classes the collector can meet. *)
Inductive exn : Type :=
| KeyError
| TypeError
| ValueError
| UnboundLocalError
| JSONDecodeError
| ConnectTimeout
| ConnectionError
| ReadTimeout.

Inductive result (A : Type) : Type :=
| Ok (a : A)
| Raise (e : exn).
Arguments Ok {A} a.
Arguments Raise {A} e.

Definition is_ok {A} (r : result A) : bool :=
  match r with Ok _ => true | Raise _ => false end.

(** Evaluation of an expression that may raise. *)
Definition rbind {A B} (r : result A) (k : A -> result B) : result B :=
  match r with
  | Ok a => k a
  | Raise e => Raise e
  end.

Declare Scope py_scope.
Delimit Scope py_scope with py.
Notation "x <~ r ;; k" := (rbind r (fun x => k))
  (at level 61, r at next level, right associativity) : py_scope.

Module Py.

Fixpoint assoc (k : string) (fields : list (string * json)) : option json :=
  match fields with
  | [] => None
  | (k', v) :: rest => if String.eqb k k' then Some v else assoc k rest
  end.

(** [v[k]] for a string subscript [k]: a lookup on a dict ([KeyError] when
    the key is missing); every other JSON value raises [TypeError] (a list
    or a string wants integer indices, the rest is not subscriptable). *)
Definition getitem (v : json) (k : string) : result json :=
  match v with
  | JObj fields =>
      match assoc k fields with
      | Some x => Ok x
      | None => Raise KeyError
      end
  | _ => Raise TypeError
  end.

(** [v[k1][k2]]. *)
Definition getitem2 (v : json) (k1 k2 : string) : result json :=
  match getitem v k1 with
  | Ok x => getitem x k2
  | Raise e => Raise e
  end.

(** The items a [for] loop draws from [v]: the elements of a list, the keys
    of a dict, the one-character strings of a string; [TypeError] for a
    value that is not iterable. *)
Definition iter (v : json) : result (list json) :=
  match v with
  | JArr items => Ok items
  | JObj fields => Ok (map (fun kv => JStr (fst kv)) fields)
  | JStr s =>
      Ok (map (fun c => JStr (String c EmptyString)) (list_ascii_of_string s))
  | _ => Raise TypeError
  end.

(** The number a value stands for in arithmetic ([bool] is a subclass of
    [int]). *)
Definition as_number (v : json) : option Q :=
  match v with
  | JBool b => Some (if b then 1 else 0)%Q
  | JNum q => Some q
  | _ => None
  end.

(** [a == b] where at least one side is a scalar. *)
Definition eqb (a b : json) : bool :=
  match a, b with
  | JNull, JNull => true
  | JStr s, JStr t => String.eqb s t
  | _, _ =>
      match as_number a, as_number b with
      | Some x, Some y => Qeq_bool x y
      | _, _ => false
      end
  end.

(** [k in v] for a string [k], with [v] not [None]. *)
Definition contains (k : string) (v : json) : result bool :=
  match v with
  | JObj fields =>
      Ok (match assoc k fields with Some _ => true | None => false end)
  | JArr items => Ok (existsb (eqb (JStr k)) items)
  | JStr s =>
      Ok (match String.index 0 k s with Some _ => true | None => false end)
  | _ => Raise TypeError
  end.

(** [x / y] on numbers, [y] a non-zero literal. *)
Definition truediv (x : json) (y : Q) : result Q :=
  match as_number x with
  | Some q => Ok (q / y)%Q
  | None => Raise TypeError
  end.

(** A dict with JSON keys, in insertion order. *)
Definition dict (V : Type) : Type := list (json * V).

Definition hashable (k : json) : bool :=
  match k with
  | JArr _ | JObj _ => false
  | _ => true
  end.

Fixpoint update {V} (d : dict V) (k : json) (v : V) : dict V :=
  match d with
  | [] => [(k, v)]
  | (k', v') :: rest =>
      if eqb k k' then (k', v) :: rest else (k', v') :: update rest k v
  end.

(** [d[k] = v]: [TypeError] for an unhashable key; an equal key keeps its
    place and takes the new value. *)
Definition setitem {V} (d : dict V) (k : json) (v : V) : result (dict V) :=
  if hashable k then Ok (update d k v) else Raise TypeError.

End Py.

(** ** The collector object, the log and the cluster *)

(** One [Sample] of a [GaugeMetricFamily]: [add_metric labels value] appends
    [Sample(name, dict(zip(labelnames, labels)), value)]. *)
Record Sample : Type := mkSample {
  sample_name : string;
  sample_labels : list (string * json);
  sample_value : json
}.

Record GaugeMetricFamily : Type := mkFamily {
  family_name : string;
  documentation : string;
  labelnames : list string;
  samples : list Sample
}.

Definition add_metric (m : GaugeMetricFamily) (labels : list json) (value : json)
  : GaugeMetricFamily :=
  mkFamily (family_name m) (documentation m) (labelnames m)
    (samples m ++ [mkSample (family_name m) (combine (labelnames m) labels) value]).

(** The state of one [KubeletCollector]: the attributes that change after
    [__init__]. A future holds the outcome of its unit of work. *)
Record KubeletCollector : Type := mkCollector {
  futures : list (result unit);
  ephemeral_storage_metric : GaugeMetricFamily;
  pod_cpu_usage_metric : GaugeMetricFamily;
  container_cpu_usage_metric : GaugeMetricFamily
}.

(** [KubeletCollector.__init__]. *)
Definition init : KubeletCollector :=
  mkCollector []
    (mkFamily "kube_pod_ephemeral_storage_used_bytes"
       "Kubernetes Pod ephemeral storage used in bytes"
       ["node"; "namespace"; "pod"] [])
    (mkFamily "kube_pod_cpu_usage_cores"
       "Kubernetes Pod cpu usage in cores"
       ["node"; "namespace"; "pod"] [])
    (mkFamily "kube_pod_container_cpu_usage_cores"
       "Kubernetes Pod container cpu usage in cores"
       ["node"; "namespace"; "pod"; "container"] []).

Inductive level : Type := DEBUG | WARNING.

(** The messages of the module, one constructor per f-string, with the
    values the f-string formats. *)
Inductive message : Type :=
| RetrievingNodes
| SaveMetricContent
| CollectingFromNode (node_name : string)
| ResponseReceived (node_name : string)
| ConnectionTimeout (node_name : string)
| UnableToRequest (node_name : string) (err : exn)
| ParsingPod (pod_id : json)
| UnableUsedBytes (name : json) (err : exn)
| UnableUsageNanoCores (name : json) (err : exn)
| UnableContainerUsage (name : json) (err : exn)
| ProcessingNode (node_name : string)
| NodeStatus (node_name : string) (status : string)
| FailedToFetch (node_name : string)
| NotReady (node_name : string)
| FinishedNode (node_name : string).

Record world : Type := mkWorld {
  self : KubeletCollector;
  logged : list (level * message)
}.

(** A node as [list_node] returns it. *)
Record NodeCondition : Type := mkCondition {
  type_ : string;
  status : string
}.

Record Node : Type := mkNode {
  metadata_name : string;
  status_conditions : list NodeCondition
}.

(** An HTTP response: [json_body] is what [response.json()] returns, [None]
    for a body it cannot decode. *)
Record Response : Type := mkResponse {
  status_code : Z;
  json_body : option json
}.

(** The cluster of one scrape: what [list_node()] returns and what
    [requests.get] does for the summary URL of each node name. *)
Record cluster : Type := mkCluster {
  list_node : list Node;
  requests_get : string -> result Response
}.

(** ** Statements: state and exceptions *)

Definition M (A : Type) : Type := world -> result A * world.

Definition ret {A} (a : A) : M A := fun w => (Ok a, w).

Definition bind {A B} (m : M A) (k : A -> M B) : M B :=
  fun w =>
    match m w with
    | (Ok a, w') => k a w'
    | (Raise e, w') => (Raise e, w')
    end.

Definition raise {A} (e : exn) : M A := fun w => (Raise e, w).

Definition eval {A} (r : result A) : M A := fun w => (r, w).

(** [try: m except Exception as err: h err]. *)
Definition try_except {A} (m : M A) (h : exn -> M A) : M A :=
  fun w =>
    match m w with
    | (Ok a, w') => (Ok a, w')
    | (Raise e, w') => h e w'
    end.

Definition logger (l : level) (msg : message) : M unit :=
  fun w => (Ok tt, mkWorld (self w) (logged w ++ [(l, msg)])).

Definition modify_self (f : KubeletCollector -> KubeletCollector) : M unit :=
  fun w => (Ok tt, mkWorld (f (self w)) (logged w)).

Notation "x <- m ;; k" := (bind m (fun x => k))
  (at level 61, m at next level, right associativity) : py_scope.
Notation "m ;;; k" := (bind m (fun _ => k))
  (at level 61, right associativity) : py_scope.

Local Open Scope py_scope.

(** ** The methods of [KubeletCollector] *)

(** [to_cores]: [nano_cores/1000000000]. *)
Definition to_cores (nano_cores : json) : result Q :=
  Py.truediv nano_cores 1000000000.

(** The body of the [for container in pod_id["containers"]] loop, once:
    the right-hand side is evaluated before the subscript of the target. *)
Definition container_entry (container : json) (d : Py.dict Q)
  : result (Py.dict Q) :=
  nano <~ Py.getitem2 container "cpu" "usageNanoCores" ;;
  cores <~ to_cores nano ;;
  name <~ Py.getitem container "name" ;;
  Py.setitem d name cores.

(** The loop over the containers: the dict keeps what was stored before an
    entry raises. *)
Fixpoint containers_loop (items : list json) (d : Py.dict Q)
  : Py.dict Q * option exn :=
  match items with
  | [] => (d, None)
  | container :: rest =>
      match container_entry container d with
      | Ok d' => containers_loop rest d'
      | Raise e => (d, Some e)
      end
  end.

(** Lines 125-130: the dict and the exception the [try] block ends with. *)
Definition container_usage (pod_id : json) : Py.dict Q * option exn :=
  match (cs <~ Py.getitem pod_id "containers" ;; Py.iter cs) with
  | Ok items => containers_loop items []
  | Raise e => ([], Some e)
  end.

Definition get_pod_metrics (pod_id : json)
  : M (json * json * json * Q * Py.dict Q) :=
  logger DEBUG (ParsingPod pod_id) ;;;
  name <- eval (Py.getitem2 pod_id "podRef" "name") ;;
  namespace <- eval (Py.getitem2 pod_id "podRef" "namespace") ;;
  used_bytes <-
    try_except
      (eval (Py.getitem2 pod_id "ephemeral-storage" "usedBytes"))
      (fun err => logger WARNING (UnableUsedBytes name err) ;;; ret (JNum 0)) ;;
  usage_nano_cores <-
    try_except
      (eval (Py.getitem2 pod_id "cpu" "usageNanoCores"))
      (fun err =>
         logger WARNING (UnableUsageNanoCores name err) ;;; ret (JNum 0)) ;;
  let (container_usage_cores, err) := container_usage pod_id in
  match err with
  | Some e => logger WARNING (UnableContainerUsage name e)
  | None => ret tt
  end ;;;
  usage_cores <- eval (to_cores usage_nano_cores) ;;
  ret (name, namespace, used_bytes, usage_cores, container_usage_cores).

(** How the [try] statement of [get_node_info] ends: by falling through to
    the statement after it, with the local [response] bound or not, or by
    its own [return]. *)
Inductive try_end : Type :=
| FallsThrough (response : option Response)
| Returns (value : json).

(** [get_node_info]: the value returned is a JSON document, [JNull] being
    Python's [None]. *)
Definition get_node_info (c : cluster) (node_name : string) : M json :=
  logger DEBUG (CollectingFromNode node_name) ;;;
  ended <-
    match requests_get c node_name with
    | Ok response =>
        logger DEBUG (ResponseReceived node_name) ;;;
        ret (FallsThrough (Some response))
    | Raise ConnectTimeout =>
        logger WARNING (ConnectionTimeout node_name) ;;;
        ret (FallsThrough None)
    | Raise err =>
        logger WARNING (UnableToRequest node_name err) ;;;
        ret (Returns JNull)
    end ;;
  match ended with
  | Returns value => ret value
  | FallsThrough None => raise UnboundLocalError
  | FallsThrough (Some response) =>
      match json_body response with
      | Some document => ret document
      | None => raise JSONDecodeError
      end
  end.

Fixpoint for_each {A} (body : A -> M unit) (items : list A) : M unit :=
  match items with
  | [] => ret tt
  | x :: rest => body x ;;; for_each body rest
  end.

Definition add_ephemeral_storage (labels : list json) (value : json) : M unit :=
  modify_self (fun s =>
    mkCollector (futures s)
      (add_metric (ephemeral_storage_metric s) labels value)
      (pod_cpu_usage_metric s) (container_cpu_usage_metric s)).

Definition add_pod_cpu_usage (labels : list json) (value : json) : M unit :=
  modify_self (fun s =>
    mkCollector (futures s) (ephemeral_storage_metric s)
      (add_metric (pod_cpu_usage_metric s) labels value)
      (container_cpu_usage_metric s)).

Definition add_container_cpu_usage (labels : list json) (value : json) : M unit :=
  modify_self (fun s =>
    mkCollector (futures s) (ephemeral_storage_metric s)
      (pod_cpu_usage_metric s)
      (add_metric (container_cpu_usage_metric s) labels value)).

(** Lines 154-160: the body of the loop over the pods of a node. *)
Definition scrape_pod (node_name : string) (pod : json) : M unit :=
  metrics <- get_pod_metrics pod ;;
  let '(name, namespace, used_bytes, usage_cores, container_usage_cores) :=
    metrics in
  let labels := [JStr node_name; namespace; name] in
  add_ephemeral_storage labels used_bytes ;;;
  add_pod_cpu_usage labels (JNum usage_cores) ;;;
  for_each
    (fun item : json * Q =>
       let (container, cores) := item in
       add_container_cpu_usage
         [JStr node_name; namespace; name; container] (JNum cores))
    container_usage_cores.

Definition ready_status (node : Node) : list NodeCondition :=
  filter (fun x => String.eqb (type_ x) "Ready") (status_conditions node).

(** [len(ready_status) > 0 and ready_status[0].status == 'True']. *)
Definition in_ready_status (node : Node) : bool :=
  match ready_status node with
  | x :: _ => String.eqb (status x) "True"
  | [] => false
  end.

(** [ready_status[0].status], read only where the test above holds. *)
Definition status_0 (node : Node) : string :=
  match ready_status node with
  | x :: _ => status x
  | [] => ""
  end.

(** [node_info is not None and 'pods' in node_info]. *)
Definition has_pods (node_info : json) : result bool :=
  match node_info with
  | JNull => Ok false
  | _ => Py.contains "pods" node_info
  end.

Definition scrape_node_metrics (c : cluster) (node : Node) : M unit :=
  let node_name := metadata_name node in
  logger DEBUG (ProcessingNode node_name) ;;;
  (if in_ready_status node then
     logger DEBUG (NodeStatus node_name (status_0 node)) ;;;
     node_info <- get_node_info c node_name ;;
     found <- eval (has_pods node_info) ;;
     if found : bool then
       pods <- eval (v <~ Py.getitem node_info "pods" ;; Py.iter v) ;;
       for_each (scrape_pod node_name) pods
     else
       logger WARNING (FailedToFetch node_name)
   else
     logger WARNING (NotReady node_name)) ;;;
  logger DEBUG (FinishedNode node_name).

(** [ThreadPoolExecutor(max_workers=n)] raises [ValueError] unless [n > 0]. *)
Definition ThreadPoolExecutor (max_workers : nat) : M unit :=
  if (max_workers =? 0)%nat then raise ValueError else ret tt.

(** [self.futures.append(executor.submit(self.scrape_node_metrics, node=node))]:
    the unit runs in a worker and its outcome, returned or raised, is kept by
    the future; what it wrote to the collector stays written.  The units are
    run here one after the other in the order of submission, one of the
    schedules of the pool. *)
Definition submit (c : cluster) (node : Node) : M unit :=
  fun w =>
    let (outcome, w') := scrape_node_metrics c node w in
    let s := self w' in
    (Ok tt,
     mkWorld
       (mkCollector (futures s ++ [outcome]) (ephemeral_storage_metric s)
          (pod_cpu_usage_metric s) (container_cpu_usage_metric s))
       (logged w')).

(** [future.result()]: the value of the unit, or its exception raised again. *)
Definition future_result (future : result unit) : M unit := eval future.

(** [collect]: the three families it yields, when it gets that far. *)
Definition collect (c : cluster)
  : M (GaugeMetricFamily * GaugeMetricFamily * GaugeMetricFamily) :=
  logger DEBUG RetrievingNodes ;;;
  let nodes := list_node c in
  ThreadPoolExecutor (List.length nodes) ;;;
  for_each (submit c) nodes ;;;
  pending <- (fun w => (Ok (futures (self w)), w)) ;;
  for_each future_result pending ;;;
  logger DEBUG SaveMetricContent ;;;
  fun w =>
    (Ok (ephemeral_storage_metric (self w), pod_cpu_usage_metric (self w),
         container_cpu_usage_metric (self w)), w).

(** The world after [__init__], nothing logged yet. *)
Definition fresh : world := mkWorld init [].

(** ** What a statement adds to the world

    Every statement of the collector only appends: calls of [add_metric],
    futures, log records.  [delta] is what one run appends, and
    [runs m r d] says that [m] ends with [r] and appends [d] whatever the
    world it starts from. *)

Record delta : Type := mkDelta {
  d_futures : list (result unit);
  d_ephemeral_storage : list (list json * json);
  d_pod_cpu_usage : list (list json * json);
  d_container_cpu_usage : list (list json * json);
  d_logged : list (level * message)
}.

Definition add_all (m : GaugeMetricFamily) (calls : list (list json * json))
  : GaugeMetricFamily :=
  fold_left (fun m' call => add_metric m' (fst call) (snd call)) calls m.

Definition extend (w : world) (d : delta) : world :=
  mkWorld
    (mkCollector
       (futures (self w) ++ d_futures d)
       (add_all (ephemeral_storage_metric (self w)) (d_ephemeral_storage d))
       (add_all (pod_cpu_usage_metric (self w)) (d_pod_cpu_usage d))
       (add_all (container_cpu_usage_metric (self w)) (d_container_cpu_usage d)))
    (logged w ++ d_logged d).

Definition dnil : delta := mkDelta [] [] [] [] [].

Definition dapp (d1 d2 : delta) : delta :=
  mkDelta (d_futures d1 ++ d_futures d2)
    (d_ephemeral_storage d1 ++ d_ephemeral_storage d2)
    (d_pod_cpu_usage d1 ++ d_pod_cpu_usage d2)
    (d_container_cpu_usage d1 ++ d_container_cpu_usage d2)
    (d_logged d1 ++ d_logged d2).

Definition dlog (l : level) (msg : message) : delta :=
  mkDelta [] [] [] [] [(l, msg)].

Definition runs {A} (m : M A) (r : result A) (d : delta) : Prop :=
  forall w, m w = (r, extend w d).

(** A statement that runs the same in every world and leaves the list of
    futures alone: everything below [collect]'s own loop. *)
Definition uniform {A} (m : M A) : Prop :=
  exists r d, runs m r d /\ d_futures d = [].

(** The sample that [add_metric] builds in family [m]. *)
Definition sample_of (m : GaugeMetricFamily) (call : list json * json) : Sample :=
  mkSample (family_name m) (combine (labelnames m) (fst call)) (snd call).

(** ** What the methods return and log, as functions of their input *)

(** The value a guarded lookup leaves in its variable, and the warning it
    logs, in terms of the outcome of the lookup. *)
Definition or_zero (r : result json) : json :=
  match r with
  | Ok v => v
  | Raise _ => JNum 0
  end.

Definition warning_if {A} (r : result A) (msg : exn -> message)
  : list (level * message) :=
  match r with
  | Ok _ => []
  | Raise e => [(WARNING, msg e)]
  end.

Definition container_warning (name : json) (err : option exn)
  : list (level * message) :=
  match err with
  | Some e => [(WARNING, UnableContainerUsage name e)]
  | None => []
  end.

(** Everything [get_pod_metrics] logs for a record whose identity is read. *)
Definition pod_log (pod_id name : json) : list (level * message) :=
  (DEBUG, ParsingPod pod_id)
    :: warning_if (Py.getitem2 pod_id "ephemeral-storage" "usedBytes")
         (UnableUsedBytes name)
    ++ warning_if (Py.getitem2 pod_id "cpu" "usageNanoCores")
         (UnableUsageNanoCores name)
    ++ container_warning name (snd (container_usage pod_id)).

Definition only_log (lg : list (level * message)) : delta :=
  mkDelta [] [] [] [] lg.

(** The [add_metric] calls of lines 158-160 for one pod. *)
Definition container_calls (node_name : string) (namespace name : json)
  (container_usage_cores : Py.dict Q) : list (list json * json) :=
  map (fun item : json * Q =>
         ([JStr node_name; namespace; name; fst item], JNum (snd item)))
    container_usage_cores.

(** What [scrape_pod] adds for a parsed record. *)
Definition pod_calls (node_name : string)
  (metrics : json * json * json * Q * Py.dict Q) : delta :=
  let '(name, namespace, used_bytes, usage_cores, container_usage_cores) :=
    metrics in
  mkDelta []
    [([JStr node_name; namespace; name], used_bytes)]
    [([JStr node_name; namespace; name], JNum usage_cores)]
    (container_calls node_name namespace name container_usage_cores)
    [].

(** The outcome of the unit of a node: by [uniform_scrape_node_metrics] it
    is the same in every world. *)
Definition outcome (c : cluster) (node : Node) : result unit :=
  fst (scrape_node_metrics c node fresh).

(** What the loop over [future.result()] ends with: the exception of the
    first failed unit, in the order of the list. *)
Fixpoint first_failure (fs : list (result unit)) : result unit :=
  match fs with
  | [] => Ok tt
  | Ok _ :: rest => first_failure rest
  | Raise e :: _ => Raise e
  end.

(** The three families as [collect] yields them. *)
Definition yielded (w : world)
  : GaugeMetricFamily * GaugeMetricFamily * GaugeMetricFamily :=
  (ephemeral_storage_metric (self w), pod_cpu_usage_metric (self w),
   container_cpu_usage_metric (self w)).

Definition ready_prologue (node : Node) : delta :=
  only_log [(DEBUG, ProcessingNode (metadata_name node));
            (DEBUG, NodeStatus (metadata_name node) (status_0 node))].

(** The log records that speak of a pod record. *)
Definition about_pod (entry : level * message) : Prop :=
  match snd entry with
  | ParsingPod _ | UnableUsedBytes _ _ | UnableUsageNanoCores _ _
  | UnableContainerUsage _ _ => True
  | _ => False
  end.

(** ** Concrete nodes, records and clusters *)

Definition conditions_ready : list NodeCondition :=
  [mkCondition "MemoryPressure" "False"; mkCondition "Ready" "True"].

Definition node1 : Node := mkNode "node-1" conditions_ready.
Definition node2 : Node := mkNode "node-2" conditions_ready.

Definition container (name : string) (nano_cores : Z) : json :=
  JObj [("name", JStr name);
        ("cpu", JObj [("usageNanoCores", JNum (inject_Z nano_cores))])].

Definition pod_web : json :=
  JObj [("podRef", JObj [("name", JStr "web"); ("namespace", JStr "default")]);
        ("ephemeral-storage", JObj [("usedBytes", JNum 4096)]);
        ("cpu", JObj [("usageNanoCores", JNum 500000000)]);
        ("containers", JArr [container "app" 250000000;
                             container "sidecar" 1000])].

Definition pod_db : json :=
  JObj [("podRef", JObj [("name", JStr "db"); ("namespace", JStr "default")]);
        ("ephemeral-storage", JObj [("usedBytes", JNum 8192)]);
        ("cpu", JObj [("usageNanoCores", JNum 125000000)]);
        ("containers", JArr [container "postgres" 125000000])].

(** A record whose [podRef] has no ['name']. *)
Definition pod_nameless : json :=
  JObj [("podRef", JObj [("namespace", JStr "default")]);
        ("ephemeral-storage", JObj [("usedBytes", JNum 1)]);
        ("cpu", JObj [("usageNanoCores", JNum 1)]);
        ("containers", JArr [])].

Definition summary (pods : list json) : Response :=
  mkResponse 200 (Some (JObj [("pods", JArr pods)])).

(** One node answers, the other one's connection times out. *)
Definition one_times_out : cluster :=
  mkCluster [node1; node2]
    (fun node_name =>
       if String.eqb node_name "node-1" then Ok (summary [pod_web])
       else Raise ConnectTimeout).

(** The same, the second node refusing the connection instead. *)
Definition one_refuses : cluster :=
  mkCluster [node1; node2]
    (fun node_name =>
       if String.eqb node_name "node-1" then Ok (summary [pod_web])
       else Raise ConnectionError).

Definition no_nodes : cluster := mkCluster [] (fun _ => Raise ConnectionError).
Definition all_time_out : cluster :=
  mkCluster [node1; node2] (fun _ => Raise ConnectTimeout).
Definition all_refuse : cluster :=
  mkCluster [node1; node2] (fun _ => Raise ConnectionError).

(** The first node reports a record without a pod name between two good
    ones; the second node is fine. *)
Definition nameless_pod : cluster :=
  mkCluster [node1; node2]
    (fun node_name =>
       if String.eqb node_name "node-1"
       then Ok (summary [pod_web; pod_nameless; pod_db])
       else Ok (summary [pod_db])).

Definition single : cluster :=
  mkCluster [node1] (fun _ => Ok (summary [pod_web])).

(** The number of series in each of the three families a cycle yields. *)
Definition series_count
  (r : result (GaugeMetricFamily * GaugeMetricFamily * GaugeMetricFamily))
  : option (nat * nat * nat) :=
  match r with
  | Ok (e, p, k) =>
      Some (List.length (samples e), List.length (samples p),
            List.length (samples k))
  | Raise _ => None
  end.

(** The key and the value the loop body stores for one container. *)
Definition container_item (container : json) : result (json * Q) :=
  nano <~ Py.getitem2 container "cpu" "usageNanoCores" ;;
  cores <~ to_cores nano ;;
  name <~ Py.getitem container "name" ;;
  if Py.hashable name then Ok (name, cores) else Raise TypeError.

(** A record with no ['ephemeral-storage'] at all, and one whose
    ['ephemeral-storage'] is a string. *)
Definition pod_without_storage : json :=
  JObj [("podRef", JObj [("name", JStr "web"); ("namespace", JStr "default")]);
        ("cpu", JObj [("usageNanoCores", JNum 500000000)]);
        ("containers", JArr [container "app" 250000000])].

(** A record with no ['containers']. *)
Definition pod_without_containers : json :=
  JObj [("podRef", JObj [("name", JStr "web"); ("namespace", JStr "default")]);
        ("ephemeral-storage", JObj [("usedBytes", JNum 4096)]);
        ("cpu", JObj [("usageNanoCores", JNum 500000000)])].

(** The first entry of type ["Ready"] in the list has status ["True"]. *)
Definition first_ready_is_true (conditions : list NodeCondition) : Prop :=
  exists before x after,
    conditions = before ++ x :: after /\
    Forall (fun y => type_ y <> "Ready") before /\
    type_ x = "Ready" /\ status x = "True".

(** A node with two ["Ready"] entries, the first one not ["True"]; and the
    same entries the other way round. *)
Definition node_ready_false_true : Node :=
  mkNode "node-1" [mkCondition "Ready" "False"; mkCondition "Ready" "True"].
Definition node_ready_true_false : Node :=
  mkNode "node-1" [mkCondition "Ready" "True"; mkCondition "Ready" "False"].

Definition answers (nodes : list Node) : cluster :=
  mkCluster nodes (fun _ => Ok (summary [pod_web])).

(** A node whose kubelet proxy answers 503 with a JSON error document, and
    one that answers 500 with a document that does have ['pods']. *)
Definition unavailable : cluster :=
  mkCluster [node1]
    (fun _ =>
       Ok (mkResponse 503
             (Some (JObj [("kind", JStr "Status");
                          ("message", JStr "service unavailable");
                          ("code", JNum 503)])))).

(** The dict the loop builds from containers that are all well formed. *)
Definition stored (containers : list json) (d : Py.dict Q) : Py.dict Q :=
  fold_left
    (fun d' container =>
       match container_item container with
       | Ok (name, cores) => Py.update d' name cores
       | Raise _ => d'
       end)
    containers d.

(** A record whose second container has no ['cpu']. *)
Definition pod_bad_container : json :=
  JObj [("podRef", JObj [("name", JStr "web"); ("namespace", JStr "default")]);
        ("ephemeral-storage", JObj [("usedBytes", JNum 4096)]);
        ("cpu", JObj [("usageNanoCores", JNum 500000000)]);
        ("containers", JArr [container "app" 250000000;
                             JObj [("name", JStr "init")];
                             container "sidecar" 1000])].

(** ** Invariants of what a unit appends *)

(** [m] ends the same way in every world, and what it appends satisfies
    [P]. *)
Definition keeps (P : delta -> Prop) {A} (m : M A) : Prop :=
  exists r d, runs m r d /\ P d.

(** An [add_metric] call with [arity] label values, the first of them the
    name of a node that satisfies [N]. *)
Definition labelled (N : string -> Prop) (arity : nat)
  (call : list json * json) : Prop :=
  List.length (fst call) = arity /\
  exists n, hd_error (fst call) = Some (JStr n) /\ N n.

Definition numeric (call : list json * json) : Prop :=
  exists q, snd call = JNum q.

(** The pod-level calls come in pairs with the same labels; every call has
    the label values of its family, led by a node name; the CPU values are
    numbers. *)
Definition well_formed_calls (N : string -> Prop) (d : delta) : Prop :=
  map fst (d_ephemeral_storage d) = map fst (d_pod_cpu_usage d) /\
  Forall (labelled N 3) (d_ephemeral_storage d) /\
  Forall (labelled N 4) (d_container_cpu_usage d) /\
  Forall numeric (d_pod_cpu_usage d) /\
  Forall numeric (d_container_cpu_usage d).

(** What the unit of one node keeps. *)
Definition unit_invariant (node_name : string) (d : delta) : Prop :=
  d_futures d = [] /\ well_formed_calls (eq node_name) d.




(** A node whose kubelet proxy answers with a body that is not JSON. *)
Definition not_json : cluster :=
  mkCluster [node1; node2]
    (fun node_name =>
       if String.eqb node_name "node-1" then Ok (mkResponse 200 None)
       else Ok (summary [pod_db])).

(** A record whose pod-level CPU figure is a string. *)
Definition pod_cpu_string : json :=
  JObj [("podRef", JObj [("name", JStr "web"); ("namespace", JStr "default")]);
        ("ephemeral-storage", JObj [("usedBytes", JNum 4096)]);
        ("cpu", JObj [("usageNanoCores", JStr "500000000")]);
        ("containers", JArr [container "app" 250000000])].

(** A node that answers with a JSON list. *)
Definition answers_list : cluster :=
  mkCluster [node1]
    (fun _ => Ok (mkResponse 200 (Some (JArr [JStr "pods"; JStr "nodes"])))).

(** ** Composition of runs *)

Section Deltas.

Lemma add_all_app m calls1 calls2 :
  add_all m (calls1 ++ calls2) = add_all (add_all m calls1) calls2.
Proof. unfold add_all. apply fold_left_app. Qed.

Lemma add_all_spec calls : forall m,
  add_all m calls =
  mkFamily (family_name m) (documentation m) (labelnames m)
    (samples m ++ map (sample_of m) calls).
Proof.
  induction calls as [|call calls IH]; intros m.
  - simpl. rewrite app_nil_r. now destruct m.
  - change (add_all m (call :: calls))
      with (add_all (add_metric m (fst call) (snd call)) calls).
    rewrite IH. unfold add_metric, sample_of. simpl.
    now rewrite <- app_assoc.
Qed.

Lemma samples_add_all m calls :
  samples (add_all m calls) = samples m ++ map (sample_of m) calls.
Proof. now rewrite add_all_spec. Qed.

Lemma extend_dnil w : extend w dnil = w.
Proof.
  destruct w as [[fs e p k] l]. unfold extend. simpl.
  now rewrite !app_nil_r.
Qed.

Lemma extend_dapp w d1 d2 : extend (extend w d1) d2 = extend w (dapp d1 d2).
Proof.
  unfold extend, dapp. simpl.
  now rewrite !add_all_app, !app_assoc.
Qed.

Lemma uniform_intro {T} (m : M T) r d :
  runs m r d -> d_futures d = [] -> uniform m.
Proof. intros H1 H2. now exists r, d. Qed.

Context {A B : Type}.

Lemma runs_ret (a : A) : runs (ret a) (Ok a) dnil.
Proof. intros w. unfold ret. now rewrite extend_dnil. Qed.

Lemma runs_raise (e : exn) : runs (@raise A e) (Raise e) dnil.
Proof. intros w. unfold raise. now rewrite extend_dnil. Qed.

Lemma runs_eval (r : result A) : runs (eval r) r dnil.
Proof. intros w. unfold eval. now rewrite extend_dnil. Qed.

Lemma runs_bind_ok (m : M A) (k : A -> M B) a d1 r d2 :
  runs m (Ok a) d1 -> runs (k a) r d2 -> runs (bind m k) r (dapp d1 d2).
Proof.
  intros Hm Hk w. unfold bind. now rewrite Hm, Hk, extend_dapp.
Qed.

Lemma runs_bind_raise (m : M A) (k : A -> M B) e d :
  runs m (Raise e) d -> runs (bind m k) (Raise e) d.
Proof. intros Hm w. unfold bind. now rewrite Hm. Qed.

Lemma runs_try_ok (m : M A) (h : exn -> M A) a d :
  runs m (Ok a) d -> runs (try_except m h) (Ok a) d.
Proof. intros Hm w. unfold try_except. now rewrite Hm. Qed.

Lemma runs_try_raise (m : M A) (h : exn -> M A) e d1 r d2 :
  runs m (Raise e) d1 -> runs (h e) r d2 ->
  runs (try_except m h) r (dapp d1 d2).
Proof.
  intros Hm Hh w. unfold try_except. now rewrite Hm, Hh, extend_dapp.
Qed.

Lemma runs_fun (m : M A) r d r' d' :
  runs m r d -> runs m r' d' -> r = r'.
Proof.
  intros H H'. specialize (H (mkWorld init [])).
  rewrite H' in H. now inversion H.
Qed.

Lemma uniform_ret (a : A) : uniform (ret a).
Proof. now apply (uniform_intro _ _ _ (runs_ret a)). Qed.

Lemma uniform_raise (e : exn) : uniform (@raise A e).
Proof. now apply (uniform_intro _ _ _ (runs_raise e)). Qed.

Lemma uniform_eval (r : result A) : uniform (eval r).
Proof. now apply (uniform_intro _ _ _ (runs_eval r)). Qed.

Lemma uniform_bind (m : M A) (k : A -> M B) :
  uniform m -> (forall a, uniform (k a)) -> uniform (bind m k).
Proof.
  intros (r & d & Hm & Hd) Hk. destruct r as [a|e].
  - destruct (Hk a) as (r' & d' & Hk' & Hd').
    apply (uniform_intro _ _ _ (runs_bind_ok _ _ _ _ _ _ Hm Hk')).
    simpl. now rewrite Hd, Hd'.
  - now apply (uniform_intro _ _ _ (runs_bind_raise _ k _ _ Hm)).
Qed.

Lemma uniform_try_except (m : M A) (h : exn -> M A) :
  uniform m -> (forall e, uniform (h e)) -> uniform (try_except m h).
Proof.
  intros (r & d & Hm & Hd) Hh. destruct r as [a|e].
  - now apply (uniform_intro _ _ _ (runs_try_ok _ h _ _ Hm)).
  - destruct (Hh e) as (r' & d' & Hh' & Hd').
    apply (uniform_intro _ _ _ (runs_try_raise _ _ _ _ _ _ Hm Hh')).
    simpl. now rewrite Hd, Hd'.
Qed.

End Deltas.

Lemma runs_as {A} (m : M A) r d d' : runs m r d -> d = d' -> runs m r d'.
Proof. now intros H <-. Qed.

Lemma runs_logger l msg : runs (logger l msg) (Ok tt) (dlog l msg).
Proof.
  intros w. unfold logger, extend, dlog. simpl.
  rewrite app_nil_r. now destruct w as [[fs [] [] []] lg].
Qed.

Lemma runs_add_ephemeral_storage labels value :
  runs (add_ephemeral_storage labels value) (Ok tt)
    (mkDelta [] [(labels, value)] [] [] []).
Proof.
  intros w. unfold add_ephemeral_storage, modify_self, extend. simpl.
  rewrite !app_nil_r. now destruct w as [[fs [] [] []] lg].
Qed.

Lemma runs_add_pod_cpu_usage labels value :
  runs (add_pod_cpu_usage labels value) (Ok tt)
    (mkDelta [] [] [(labels, value)] [] []).
Proof.
  intros w. unfold add_pod_cpu_usage, modify_self, extend. simpl.
  rewrite !app_nil_r. now destruct w as [[fs [] [] []] lg].
Qed.

Lemma runs_add_container_cpu_usage labels value :
  runs (add_container_cpu_usage labels value) (Ok tt)
    (mkDelta [] [] [] [(labels, value)] []).
Proof.
  intros w. unfold add_container_cpu_usage, modify_self, extend. simpl.
  rewrite !app_nil_r. now destruct w as [[fs [] [] []] lg].
Qed.

Lemma uniform_logger l msg : uniform (logger l msg).
Proof. now apply (uniform_intro _ _ _ (runs_logger l msg)). Qed.

Lemma uniform_for_each {A} (body : A -> M unit) items :
  (forall x, uniform (body x)) -> uniform (for_each body items).
Proof.
  intros Hb. induction items as [|x rest IH]; simpl.
  - apply uniform_ret.
  - apply uniform_bind; [apply Hb | intros _; exact IH].
Qed.

(** ** The parser of one pod record *)

Ltac same_world w :=
  destruct w as [[? [] [] []] ?]; unfold extend; simpl;
  rewrite ?app_nil_r, <- ?app_assoc; reflexivity.

Section PodRecord.

Variable pod_id : json.

Lemma get_pod_metrics_no_name e :
  Py.getitem2 pod_id "podRef" "name" = Raise e ->
  runs (get_pod_metrics pod_id) (Raise e) (dlog DEBUG (ParsingPod pod_id)).
Proof.
  intros H w. unfold get_pod_metrics, bind, eval, logger. simpl.
  rewrite H. f_equal. same_world w.
Qed.

Lemma get_pod_metrics_no_namespace name e :
  Py.getitem2 pod_id "podRef" "name" = Ok name ->
  Py.getitem2 pod_id "podRef" "namespace" = Raise e ->
  runs (get_pod_metrics pod_id) (Raise e) (dlog DEBUG (ParsingPod pod_id)).
Proof.
  intros H1 H2 w. unfold get_pod_metrics, bind, eval, logger. simpl.
  rewrite H1, H2. f_equal. same_world w.
Qed.

(** With its identity read, the record is parsed to the end: the three
    guarded blocks never raise, only the final [to_cores] can. *)
Lemma get_pod_metrics_identified name namespace :
  Py.getitem2 pod_id "podRef" "name" = Ok name ->
  Py.getitem2 pod_id "podRef" "namespace" = Ok namespace ->
  runs (get_pod_metrics pod_id)
    (cores <~ to_cores (or_zero (Py.getitem2 pod_id "cpu" "usageNanoCores")) ;;
     Ok (name, namespace,
         or_zero (Py.getitem2 pod_id "ephemeral-storage" "usedBytes"),
         cores, fst (container_usage pod_id)))
    (only_log (pod_log pod_id name)).
Proof.
  intros H1 H2 w.
  unfold get_pod_metrics, pod_log, bind, try_except, eval, logger, ret.
  simpl. rewrite H1, H2.
  destruct (Py.getitem2 pod_id "ephemeral-storage" "usedBytes") as [ub|e1];
    destruct (Py.getitem2 pod_id "cpu" "usageNanoCores") as [nano|e2];
    destruct (container_usage pod_id) as [m [e3|]]; cbn [or_zero];
    try destruct (to_cores nano) as [cores|e4];
    simpl; f_equal; same_world w.
Qed.

End PodRecord.

Lemma uniform_get_pod_metrics pod_id : uniform (get_pod_metrics pod_id).
Proof.
  destruct (Py.getitem2 pod_id "podRef" "name") as [name|e] eqn:H1.
  - destruct (Py.getitem2 pod_id "podRef" "namespace") as [namespace|e] eqn:H2.
    + now apply (uniform_intro _ _ _ (get_pod_metrics_identified _ _ _ H1 H2)).
    + now apply (uniform_intro _ _ _ (get_pod_metrics_no_namespace _ _ _ H1 H2)).
  - now apply (uniform_intro _ _ _ (get_pod_metrics_no_name _ _ H1)).
Qed.

(** ** The unit of work of one node *)

Section NodeUnit.

Variable c : cluster.
Variable node_name : string.

Lemma runs_container_loop namespace name (m : Py.dict Q) :
  runs
    (for_each
       (fun item : json * Q =>
          let (container, cores) := item in
          add_container_cpu_usage
            [JStr node_name; namespace; name; container] (JNum cores)) m)
    (Ok tt)
    (mkDelta [] [] [] (container_calls node_name namespace name m) []).
Proof.
  induction m as [|[k x] m IH].
  - apply runs_ret.
  - simpl for_each.
    exact (runs_bind_ok _ _ _ _ _ _
             (runs_add_container_cpu_usage _ _) IH).
Qed.

Lemma scrape_pod_ok pod metrics d :
  runs (get_pod_metrics pod) (Ok metrics) d ->
  runs (scrape_pod node_name pod) (Ok tt)
    (dapp d (pod_calls node_name metrics)).
Proof.
  intros H. unfold scrape_pod.
  eapply runs_bind_ok; [exact H |].
  destruct metrics as [[[[name namespace] used_bytes] usage_cores] m].
  eapply runs_as;
    [ eapply runs_bind_ok; [apply runs_add_ephemeral_storage |];
      eapply runs_bind_ok; [apply runs_add_pod_cpu_usage |];
      apply runs_container_loop
    | reflexivity ].
Qed.

Lemma scrape_pod_raise pod e d :
  runs (get_pod_metrics pod) (Raise e) d ->
  runs (scrape_pod node_name pod) (Raise e) d.
Proof. intros H. unfold scrape_pod. now apply runs_bind_raise. Qed.

Lemma uniform_scrape_pod pod : uniform (scrape_pod node_name pod).
Proof.
  destruct (uniform_get_pod_metrics pod) as ([metrics|e] & d & H & Hd).
  - apply (uniform_intro _ _ _ (scrape_pod_ok _ _ _ H)).
    destruct metrics as [[[[name namespace] used_bytes] usage_cores] m].
    simpl. now rewrite Hd.
  - now apply (uniform_intro _ _ _ (scrape_pod_raise _ _ _ H)).
Qed.

(** The three ways [requests.get] ends, seen from [get_node_info]. *)
Lemma get_node_info_response response :
  requests_get c node_name = Ok response ->
  runs (get_node_info c node_name)
    (match json_body response with
     | Some document => Ok document
     | None => Raise JSONDecodeError
     end)
    (only_log [(DEBUG, CollectingFromNode node_name);
               (DEBUG, ResponseReceived node_name)]).
Proof.
  intros H w. unfold get_node_info, bind, logger, ret, raise. rewrite H.
  simpl. destruct (json_body response); f_equal; same_world w.
Qed.

Lemma get_node_info_connect_timeout :
  requests_get c node_name = Raise ConnectTimeout ->
  runs (get_node_info c node_name) (Raise UnboundLocalError)
    (only_log [(DEBUG, CollectingFromNode node_name);
               (WARNING, ConnectionTimeout node_name)]).
Proof.
  intros H w. unfold get_node_info, bind, logger, ret, raise. rewrite H.
  simpl. f_equal. same_world w.
Qed.

Lemma get_node_info_exception err :
  requests_get c node_name = Raise err -> err <> ConnectTimeout ->
  runs (get_node_info c node_name) (Ok JNull)
    (only_log [(DEBUG, CollectingFromNode node_name);
               (WARNING, UnableToRequest node_name err)]).
Proof.
  intros H Hne w. unfold get_node_info, bind, logger, ret, raise. rewrite H.
  destruct err; try congruence; simpl; f_equal; same_world w.
Qed.

Lemma uniform_get_node_info : uniform (get_node_info c node_name).
Proof.
  destruct (requests_get c node_name) as [response|err] eqn:H.
  - now apply (uniform_intro _ _ _ (get_node_info_response _ H)).
  - assert (D : err = ConnectTimeout \/ err <> ConnectTimeout)
      by (destruct err; (now left) || (right; discriminate)).
    destruct D as [->|D].
    + now apply (uniform_intro _ _ _ (get_node_info_connect_timeout H)).
    + now apply (uniform_intro _ _ _ (get_node_info_exception _ H D)).
Qed.

End NodeUnit.

Lemma uniform_scrape_node_metrics c node : uniform (scrape_node_metrics c node).
Proof.
  unfold scrape_node_metrics.
  apply uniform_bind; [apply uniform_logger | intros _].
  apply uniform_bind; [| intros _; apply uniform_logger].
  destruct (in_ready_status node); [| apply uniform_logger].
  apply uniform_bind; [apply uniform_logger | intros _].
  apply uniform_bind; [apply uniform_get_node_info | intros node_info].
  apply uniform_bind; [apply uniform_eval | intros [|]].
  - apply uniform_bind; [apply uniform_eval | intros pods].
    apply uniform_for_each, uniform_scrape_pod.
  - apply uniform_logger.
Qed.

(** A node that is not in Ready status: three log records and nothing else. *)
Lemma scrape_node_metrics_not_ready c node :
  in_ready_status node = false ->
  runs (scrape_node_metrics c node) (Ok tt)
    (only_log [(DEBUG, ProcessingNode (metadata_name node));
               (WARNING, NotReady (metadata_name node));
               (DEBUG, FinishedNode (metadata_name node))]).
Proof.
  intros H w. unfold scrape_node_metrics, bind, logger. rewrite H.
  simpl. f_equal. same_world w.
Qed.

Lemma runs_outcome c node :
  exists d,
    runs (scrape_node_metrics c node) (outcome c node) d /\ d_futures d = [].
Proof.
  destruct (uniform_scrape_node_metrics c node) as (r & d & H & Hd).
  exists d. unfold outcome. now rewrite H.
Qed.

(** ** The cycle *)

Lemma first_failure_app fs1 fs2 :
  first_failure (fs1 ++ fs2) =
  match first_failure fs1 with
  | Ok _ => first_failure fs2
  | Raise e => Raise e
  end.
Proof.
  induction fs1 as [|[u|e] fs1 IH]; simpl; auto.
Qed.

Lemma first_failure_raise fs e :
  In (Raise e) fs -> exists e', first_failure fs = Raise e'.
Proof.
  induction fs as [|[u|e'] fs IH]; simpl; intros H.
  - contradiction.
  - destruct H as [H|H]; [discriminate | auto].
  - eauto.
Qed.

Lemma first_failure_ok fs :
  first_failure fs = Ok tt <-> Forall (fun f => f = Ok tt) fs.
Proof.
  induction fs as [|[[]|e] fs IH]; simpl.
  - split; auto.
  - rewrite IH. split; [now constructor | now inversion 1].
  - split; [discriminate | inversion 1; discriminate].
Qed.

Lemma runs_join fs : runs (for_each future_result fs) (first_failure fs) dnil.
Proof.
  induction fs as [|[u|e] fs IH]; simpl.
  - apply runs_ret.
  - eapply runs_as;
      [eapply runs_bind_ok; [apply (runs_eval (Ok u)) | exact IH] | reflexivity].
  - apply runs_bind_raise, (runs_eval (Raise e)).
Qed.

Lemma runs_submit c node d :
  runs (scrape_node_metrics c node) (outcome c node) d ->
  runs (submit c node) (Ok tt)
    (dapp d (mkDelta [outcome c node] [] [] [] [])).
Proof.
  intros H w. unfold submit. rewrite H. f_equal.
  unfold extend, dapp. simpl. now rewrite !app_nil_r, app_assoc.
Qed.

Lemma runs_submit_all c nodes :
  exists D,
    runs (for_each (submit c) nodes) (Ok tt) D /\
    d_futures D = map (outcome c) nodes.
Proof.
  induction nodes as [|node nodes (D & HD & HF)].
  - exists dnil. split; [apply runs_ret | reflexivity].
  - destruct (runs_outcome c node) as (d & Hd & Hq).
    eexists. split.
    + simpl for_each.
      eapply runs_bind_ok; [apply runs_submit, Hd | exact HD].
    + simpl. now rewrite Hq, HF.
Qed.

Lemma collect_no_nodes c :
  list_node c = [] ->
  runs (collect c) (Raise ValueError) (dlog DEBUG RetrievingNodes).
Proof.
  intros H. unfold collect. rewrite H. simpl.
  eapply runs_as.
  - eapply runs_bind_ok; [apply runs_logger |].
    apply runs_bind_raise, runs_raise.
  - reflexivity.
Qed.

(** A cycle over at least one node: every unit runs, then the join either
    raises the first failure among all the futures the collector holds, or
    lets [collect] yield the three families as they are by then. *)
Lemma collect_spec c :
  list_node c <> [] ->
  exists D,
    d_futures D = map (outcome c) (list_node c) /\
    forall w,
      collect c w =
      match first_failure (futures (self w) ++ d_futures D) with
      | Ok _ =>
          let w' :=
            extend w
              (dapp (dapp (dlog DEBUG RetrievingNodes) D)
                 (dlog DEBUG SaveMetricContent)) in
          (Ok (yielded w'), w')
      | Raise e => (Raise e, extend w (dapp (dlog DEBUG RetrievingNodes) D))
      end.
Proof.
  intros Hne. destruct (runs_submit_all c (list_node c)) as (D & HD & HF).
  exists D. split; [exact HF | intros w].
  unfold collect, bind. rewrite runs_logger.
  unfold ThreadPoolExecutor.
  destruct (list_node c) as [|n ns] eqn:E; [congruence |].
  cbn [List.length Nat.eqb ret]. rewrite HD.
  pose proof (runs_join (futures (self w) ++ d_futures D)) as HJ.
  replace (futures (self (extend (extend w (dlog DEBUG RetrievingNodes)) D)))
    with (futures (self w) ++ d_futures D)
    by (simpl; now rewrite app_nil_r).
  rewrite HJ, extend_dnil, extend_dapp.
  destruct (first_failure (futures (self w) ++ d_futures D)) as [u|e].
  - rewrite runs_logger, extend_dapp. reflexivity.
  - reflexivity.
Qed.

(** ** A Ready node, step by step *)

Section ReadyNode.

Variable c : cluster.
Variable node : Node.
Hypothesis Hready : in_ready_status node = true.

Let node_name := metadata_name node.

(** The unit of a Ready node, as the statements after the readiness test. *)
Lemma scrape_node_metrics_ready w :
  scrape_node_metrics c node w =
  (logger DEBUG (ProcessingNode node_name) ;;;
   (logger DEBUG (NodeStatus node_name (status_0 node)) ;;;
    node_info <- get_node_info c node_name ;;
    found <- eval (has_pods node_info) ;;
    if found : bool then
      pods <- eval (v <~ Py.getitem node_info "pods" ;; Py.iter v) ;;
      for_each (scrape_pod node_name) pods
    else
      logger WARNING (FailedToFetch node_name)) ;;;
   logger DEBUG (FinishedNode node_name)) w.
Proof. unfold scrape_node_metrics. now rewrite Hready. Qed.

(** The fetch raises: so does the unit. *)
Lemma ready_fetch_raises e d :
  runs (get_node_info c node_name) (Raise e) d ->
  runs (scrape_node_metrics c node) (Raise e) (dapp (ready_prologue node) d).
Proof.
  intros H w. rewrite scrape_node_metrics_ready.
  unfold bind. rewrite runs_logger, runs_logger, H.
  now rewrite !extend_dapp.
Qed.

(** The fetch returns a document in which ['pods'] is not found: the
    warning, and nothing added. *)
Lemma ready_not_found node_info d :
  runs (get_node_info c node_name) (Ok node_info) d ->
  has_pods node_info = Ok false ->
  runs (scrape_node_metrics c node) (Ok tt)
    (dapp (ready_prologue node)
       (dapp d (only_log [(WARNING, FailedToFetch node_name);
                          (DEBUG, FinishedNode node_name)]))).
Proof.
  intros H Hf w. rewrite scrape_node_metrics_ready.
  unfold bind, eval. rewrite runs_logger, runs_logger, H, Hf.
  rewrite !runs_logger. now rewrite !extend_dapp.
Qed.

(** The fetch returns a document whose pods are [pods]: the loop decides. *)
Lemma ready_pods_ok node_info d pods d' :
  runs (get_node_info c node_name) (Ok node_info) d ->
  has_pods node_info = Ok true ->
  (v <~ Py.getitem node_info "pods" ;; Py.iter v) = Ok pods ->
  runs (for_each (scrape_pod node_name) pods) (Ok tt) d' ->
  runs (scrape_node_metrics c node) (Ok tt)
    (dapp (ready_prologue node)
       (dapp d (dapp d' (dlog DEBUG (FinishedNode node_name))))).
Proof.
  intros H Hf Hp Hl w. rewrite scrape_node_metrics_ready.
  unfold bind, eval. rewrite runs_logger, runs_logger, H, Hf, Hp, Hl.
  rewrite runs_logger. now rewrite !extend_dapp.
Qed.

Lemma ready_pods_raise node_info d pods e d' :
  runs (get_node_info c node_name) (Ok node_info) d ->
  has_pods node_info = Ok true ->
  (v <~ Py.getitem node_info "pods" ;; Py.iter v) = Ok pods ->
  runs (for_each (scrape_pod node_name) pods) (Raise e) d' ->
  runs (scrape_node_metrics c node) (Raise e)
    (dapp (ready_prologue node) (dapp d d')).
Proof.
  intros H Hf Hp Hl w. rewrite scrape_node_metrics_ready.
  unfold bind, eval. rewrite runs_logger, runs_logger, H, Hf, Hp, Hl.
  now rewrite !extend_dapp.
Qed.

End ReadyNode.

Section ReadyNodeFailures.

Variable c : cluster.
Variable node : Node.
Hypothesis Hready : in_ready_status node = true.

(** The membership test itself raises (a document that is a number or a
    boolean): so does the unit. *)
Lemma ready_test_raises node_info d e :
  runs (get_node_info c (metadata_name node)) (Ok node_info) d ->
  has_pods node_info = Raise e ->
  runs (scrape_node_metrics c node) (Raise e)
    (dapp (ready_prologue node) d).
Proof.
  intros H Hf w. rewrite scrape_node_metrics_ready by exact Hready.
  unfold bind, eval. rewrite runs_logger, runs_logger, H, Hf.
  now rewrite !extend_dapp.
Qed.

(** [node_info['pods']] cannot be read or iterated: so does the unit. *)
Lemma ready_iter_raises node_info d e :
  runs (get_node_info c (metadata_name node)) (Ok node_info) d ->
  has_pods node_info = Ok true ->
  (v <~ Py.getitem node_info "pods" ;; Py.iter v) = Raise e ->
  runs (scrape_node_metrics c node) (Raise e)
    (dapp (ready_prologue node) d).
Proof.
  intros H Hf Hp w. rewrite scrape_node_metrics_ready by exact Hready.
  unfold bind, eval. rewrite runs_logger, runs_logger, H, Hf, Hp.
  now rewrite !extend_dapp.
Qed.

End ReadyNodeFailures.

Lemma pod_log_about_pod pod_id name : Forall about_pod (pod_log pod_id name).
Proof.
  unfold pod_log, warning_if, container_warning.
  constructor; [exact I |].
  destruct (Py.getitem2 pod_id "ephemeral-storage" "usedBytes");
    destruct (Py.getitem2 pod_id "cpu" "usageNanoCores");
    destruct (snd (container_usage pod_id)); simpl;
    repeat (constructor; try exact I).
Qed.

Lemma scrape_pod_log node_name pod :
  exists r d,
    runs (scrape_pod node_name pod) r d /\ Forall about_pod (d_logged d).
Proof.
  destruct (Py.getitem2 pod "podRef" "name") as [name|e] eqn:H1.
  - destruct (Py.getitem2 pod "podRef" "namespace") as [namespace|e] eqn:H2.
    + pose proof (get_pod_metrics_identified _ _ _ H1 H2) as H.
      destruct (to_cores (or_zero (Py.getitem2 pod "cpu" "usageNanoCores")))
        as [cores|e]; cbn [rbind] in H.
      * eexists _, _. split; [apply scrape_pod_ok, H |].
        simpl. rewrite app_nil_r. apply pod_log_about_pod.
      * eexists _, _. split; [apply scrape_pod_raise, H |].
        apply pod_log_about_pod.
    + eexists _, _. split.
      * apply scrape_pod_raise, (get_pod_metrics_no_namespace _ _ _ H1 H2).
      * repeat constructor.
  - eexists _, _. split.
    + apply scrape_pod_raise, (get_pod_metrics_no_name _ _ H1).
    + repeat constructor.
Qed.

Lemma pods_loop_log node_name pods :
  exists r d,
    runs (for_each (scrape_pod node_name) pods) r d /\
    Forall about_pod (d_logged d).
Proof.
  induction pods as [|pod pods (r & d & H & HF)].
  - exists (Ok tt), dnil. split; [apply runs_ret | constructor].
  - destruct (scrape_pod_log node_name pod) as ([[]|e] & d0 & H0 & HF0).
    + exists r, (dapp d0 d). split.
      * simpl for_each. eapply runs_bind_ok; eassumption.
      * simpl. now apply Forall_app.
    + exists (Raise e), d0. split; [| exact HF0].
      simpl for_each. now apply runs_bind_raise.
Qed.

(** One pod that raises stops the loop, wherever it stands in the list. *)
Lemma pods_loop_raises node_name pods pod e d :
  In pod pods ->
  runs (scrape_pod node_name pod) (Raise e) d ->
  exists e' d', runs (for_each (scrape_pod node_name) pods) (Raise e') d'.
Proof.
  intros Hin Hbad. induction pods as [|p pods IH]; [contradiction |].
  destruct (uniform_scrape_pod node_name p) as ([[]|e0] & d0 & H0 & _).
  - destruct Hin as [->|Hin].
    + pose proof (runs_fun _ _ _ _ _ H0 Hbad). discriminate.
    + destruct (IH Hin) as (e' & d' & H').
      exists e', (dapp d0 d'). simpl for_each.
      eapply runs_bind_ok; eassumption.
  - exists e0, d0. simpl for_each. now apply runs_bind_raise.
Qed.

(** ** The claims *)

(** C1 (contradicted by the code).  The claim: a fetch that fails with a
    connection timeout is logged and answered with "no data", so the node
    contributes nothing and the other nodes' series still appear.  The
    code: the [ConnectTimeout] handler logs its warning and does not return;
    the function goes on to [return response.json()] with [response] never
    bound, which raises [UnboundLocalError] out of [get_node_info], out of
    the node's unit and out of [collect], which yields nothing although the
    first node's series were added.  The handler next to it, for any other
    exception, does return [None], and then the cycle yields the first
    node's series. *)
Theorem connect_timeout_escapes_get_node_info :
  get_node_info one_times_out "node-2" fresh =
    (Raise UnboundLocalError,
     mkWorld init [(DEBUG, CollectingFromNode "node-2");
                   (WARNING, ConnectionTimeout "node-2")]) /\
  outcome one_times_out node2 = Raise UnboundLocalError /\
  fst (collect one_times_out fresh) = Raise UnboundLocalError /\
  series_count (Ok (yielded (snd (collect one_times_out fresh))))
    = Some (1, 1, 2)%nat /\
  get_node_info one_refuses "node-2" fresh =
    (Ok JNull,
     mkWorld init [(DEBUG, CollectingFromNode "node-2");
                   (WARNING, UnableToRequest "node-2" ConnectionError)]) /\
  series_count (fst (collect one_refuses fresh)) = Some (1, 1, 2)%nat.
Proof. repeat split; reflexivity. Qed.

(** C3 (contradicted by the code).  The claim: [collect] completes and
    returns the three families for every input, three empty ones for an
    empty node list or a cluster where no node can be reached.  The code:
    with no node, [ThreadPoolExecutor(max_workers=0)] raises [ValueError]
    before anything is yielded; with every node timing out on connection,
    the cycle raises [UnboundLocalError] (the defect of C1).  Nodes that
    fail in any other way do give three empty families. *)
Theorem collect_raises_without_nodes :
  collect no_nodes fresh =
    (Raise ValueError, mkWorld init [(DEBUG, RetrievingNodes)]) /\
  fst (collect all_time_out fresh) = Raise UnboundLocalError /\
  fst (collect all_refuse fresh) = Ok (yielded fresh) /\
  series_count (fst (collect all_refuse fresh)) = Some (0, 0, 0)%nat.
Proof. repeat split; reflexivity. Qed.

(** A unit that raises makes the join raise. *)
Lemma collect_raises_with_unit c node e w :
  In node (list_node c) -> outcome c node = Raise e ->
  exists e', fst (collect c w) = Raise e'.
Proof.
  intros Hin He.
  assert (Hne : list_node c <> []) by (intros E; rewrite E in Hin; exact Hin).
  destruct (collect_spec c Hne) as (D & HF & Hc). rewrite Hc.
  destruct (first_failure_raise (futures (self w) ++ d_futures D) e)
    as (e' & E).
  - apply in_or_app. right. rewrite HF, <- He. now apply in_map.
  - exists e'. now rewrite E.
Qed.

(** C2, the claim as written, fails: a record without [podRef.name], on a
    Ready node that answered, raises [KeyError] out of the node's unit, and
    the join of [collect] raises it instead of yielding. *)
Lemma nameless_pod_aborts_join :
  Py.getitem2 pod_nameless "podRef" "name" = Raise KeyError /\
  fst (get_pod_metrics pod_nameless fresh) = Raise KeyError /\
  outcome nameless_pod node1 = Raise KeyError /\
  outcome nameless_pod node2 = Ok tt /\
  fst (collect nameless_pod fresh) = Raise KeyError.
Proof. repeat split; reflexivity. Qed.

(** C2, amended.  A pod record whose [podRef] name or namespace cannot be
    read is not skipped: [get_pod_metrics] raises on it, nothing catches the
    exception at the boundary of the node's unit, and the join of [collect]
    raises instead of yielding the three families.  What stays inside
    [get_pod_metrics] is the failure of a guarded block: once the identity is
    read, the only statement that can still raise is the final [to_cores]. *)
Theorem missing_identity_aborts_cycle
  (c : cluster) (node : Node) (response : Response)
  (fields : list (string * json)) (pods : list json) (pod : json) (w : world) :
  In node (list_node c) ->
  in_ready_status node = true ->
  requests_get c (metadata_name node) = Ok response ->
  json_body response = Some (JObj fields) ->
  Py.assoc "pods" fields = Some (JArr pods) ->
  In pod pods ->
  is_ok (Py.getitem2 pod "podRef" "name")
    && is_ok (Py.getitem2 pod "podRef" "namespace") = false ->
  (exists e, fst (get_pod_metrics pod w) = Raise e) /\
  (exists e, outcome c node = Raise e) /\
  (exists e, fst (collect c w) = Raise e) /\
  (forall pod' name namespace,
     Py.getitem2 pod' "podRef" "name" = Ok name ->
     Py.getitem2 pod' "podRef" "namespace" = Ok namespace ->
     is_ok (fst (get_pod_metrics pod' w)) =
     is_ok (to_cores (or_zero (Py.getitem2 pod' "cpu" "usageNanoCores")))).
Proof.
  intros Hin Hready Hget Hbody Hpods Hpod Hbad.
  assert (Hraise : exists e d, runs (get_pod_metrics pod) (Raise e) d).
  { destruct (Py.getitem2 pod "podRef" "name") as [name|e] eqn:H1.
    - destruct (Py.getitem2 pod "podRef" "namespace") as [ns|e] eqn:H2;
        [discriminate |].
      eexists _, _. exact (get_pod_metrics_no_namespace _ _ _ H1 H2).
    - eexists _, _. exact (get_pod_metrics_no_name _ _ H1). }
  destruct Hraise as (e & d & Hr).
  assert (Hunit : exists e', outcome c node = Raise e').
  { destruct (pods_loop_raises (metadata_name node) pods pod e d Hpod
                (scrape_pod_raise _ _ _ _ Hr)) as (e' & d' & Hloop).
    pose proof (get_node_info_response c _ _ Hget) as Hinfo.
    rewrite Hbody in Hinfo.
    assert (Hfound : has_pods (JObj fields) = Ok true)
      by (simpl; now rewrite Hpods).
    assert (Hiter : (v <~ Py.getitem (JObj fields) "pods" ;; Py.iter v)
                    = Ok pods) by (simpl; now rewrite Hpods).
    pose proof (ready_pods_raise c node Hready _ _ _ _ _
                  Hinfo Hfound Hiter Hloop) as Hrun.
    exists e'. unfold outcome. now rewrite Hrun. }
  repeat split.
  - exists e. now rewrite Hr.
  - exact Hunit.
  - destruct Hunit as (e' & He'). eapply collect_raises_with_unit; eassumption.
  - intros pod' name namespace H1 H2.
    rewrite (get_pod_metrics_identified _ _ _ H1 H2). simpl.
    now destruct (to_cores _).
Qed.

Lemma missing_identity_aborts_cycle_witness :
  exists e, fst (collect nameless_pod fresh) = Raise e.
Proof.
  refine (proj1 (proj2 (proj2
    (missing_identity_aborts_cycle nameless_pod node1
       (summary [pod_web; pod_nameless; pod_db])
       [("pods", JArr [pod_web; pod_nameless; pod_db])]
       [pod_web; pod_nameless; pod_db] pod_nameless fresh
       _ _ _ _ _ _ _)))).
  - simpl. now left.
  - reflexivity.
  - reflexivity.
  - reflexivity.
  - reflexivity.
  - simpl. right. now left.
  - reflexivity.
Defined.

(** C4, the claim as written, fails: the second cycle of one collector over
    an unchanged cluster yields every series of the first cycle twice. *)
Lemma second_cycle_duplicates_series :
  series_count (fst (collect single fresh)) = Some (1, 1, 2)%nat /\
  series_count (fst (collect single (snd (collect single fresh))))
    = Some (2, 2, 4)%nat /\
  fst (collect single (snd (collect single fresh)))
    <> fst (collect single fresh) /\
  List.length (futures (self (snd (collect single fresh)))) = 1%nat /\
  List.length
    (futures (self (snd (collect single (snd (collect single fresh))))))
    = 2%nat.
Proof.
  repeat split; try reflexivity.
  intros H. apply (f_equal series_count) in H. discriminate H.
Qed.

Lemma sample_of_add_all m calls : sample_of (add_all m calls) = sample_of m.
Proof. now rewrite add_all_spec. Qed.

(** C4, amended.  The three families and the list of futures are created
    once, in [__init__], and kept by the collector: a cycle appends its
    series to the ones the families already hold.  A second cycle over an
    unchanged cluster, after a first one that yielded, yields as well, every
    family holding what the first cycle yielded followed by the series of
    the first cycle once more, and the list of futures holding the futures
    of both cycles. *)
Theorem cycles_accumulate
  (c : cluster) (w w1 : world) (e1 p1 k1 : GaugeMetricFamily) :
  collect c w = (Ok (e1, p1, k1), w1) ->
  exists e2 p2 k2 w2 new_e new_p new_k,
    collect c w1 = (Ok (e2, p2, k2), w2) /\
    samples e1 = samples (ephemeral_storage_metric (self w)) ++ new_e /\
    samples e2 = samples e1 ++ new_e /\
    samples p1 = samples (pod_cpu_usage_metric (self w)) ++ new_p /\
    samples p2 = samples p1 ++ new_p /\
    samples k1 = samples (container_cpu_usage_metric (self w)) ++ new_k /\
    samples k2 = samples k1 ++ new_k /\
    futures (self w1) = futures (self w) ++ map (outcome c) (list_node c) /\
    futures (self w2) = futures (self w1) ++ map (outcome c) (list_node c).
Proof.
  intros H.
  destruct (list_node c) as [|n ns] eqn:E.
  { rewrite (collect_no_nodes c E) in H. discriminate. }
  assert (Hne : list_node c <> []) by (rewrite E; discriminate).
  rewrite <- E. clear E n ns.
  destruct (collect_spec c Hne) as (D & HF & Hc).
  rewrite Hc in H.
  destruct (first_failure (futures (self w) ++ d_futures D)) as [u|e] eqn:E1;
    [| discriminate].
  cbv zeta in H. injection H as He Hp Hk Hw.
  assert (E2 : first_failure (futures (self w1) ++ d_futures D) = Ok u).
  { rewrite <- Hw. simpl. rewrite app_nil_r, first_failure_app, E1.
    rewrite first_failure_app in E1.
    now destruct (first_failure (futures (self w))). }
  rewrite Hc, E2. cbv zeta.
  exists (add_all e1 (d_ephemeral_storage D)),
    (add_all p1 (d_pod_cpu_usage D)),
    (add_all k1 (d_container_cpu_usage D)).
  exists (extend w1 (dapp (dapp (dlog DEBUG RetrievingNodes) D)
                       (dlog DEBUG SaveMetricContent))).
  exists (map (sample_of (ephemeral_storage_metric (self w)))
            (d_ephemeral_storage D)),
    (map (sample_of (pod_cpu_usage_metric (self w))) (d_pod_cpu_usage D)),
    (map (sample_of (container_cpu_usage_metric (self w)))
       (d_container_cpu_usage D)).
  rewrite app_nil_r in He, Hp, Hk.
  split; [| repeat split].
  - assert (Ee : ephemeral_storage_metric (self w1) = e1)
      by (rewrite <- Hw; simpl; now rewrite app_nil_r).
    assert (Ep : pod_cpu_usage_metric (self w1) = p1)
      by (rewrite <- Hw; simpl; now rewrite app_nil_r).
    assert (Ek : container_cpu_usage_metric (self w1) = k1)
      by (rewrite <- Hw; simpl; now rewrite app_nil_r).
    do 2 f_equal. unfold yielded. simpl.
    now rewrite !app_nil_r, Ee, Ep, Ek.
  - rewrite <- He. apply samples_add_all.
  - rewrite (samples_add_all e1). f_equal. rewrite <- He.
    now rewrite sample_of_add_all.
  - rewrite <- Hp. apply samples_add_all.
  - rewrite (samples_add_all p1). f_equal. rewrite <- Hp.
    now rewrite sample_of_add_all.
  - rewrite <- Hk. apply samples_add_all.
  - rewrite (samples_add_all k1). f_equal. rewrite <- Hk.
    now rewrite sample_of_add_all.
  - rewrite <- Hw, <- HF. simpl. now rewrite app_nil_r.
  - rewrite <- HF. simpl. now rewrite app_nil_r.
Qed.

Lemma cycles_accumulate_witness :
  exists e2 p2 k2 w2,
    collect single (snd (collect single fresh)) = (Ok (e2, p2, k2), w2).
Proof.
  destruct (cycles_accumulate single fresh (snd (collect single fresh))
              (ephemeral_storage_metric (self (snd (collect single fresh))))
              (pod_cpu_usage_metric (self (snd (collect single fresh))))
              (container_cpu_usage_metric (self (snd (collect single fresh))))
              eq_refl)
    as (e2 & p2 & k2 & w2 & _ & _ & _ & H & _).
  exists e2, p2, k2, w2. exact H.
Defined.

(** ** Conversion of nano-cores *)

Lemma to_cores_number (q : Q) : to_cores (JNum q) = Ok (q / 1000000000)%Q.
Proof. reflexivity. Qed.

Lemma billionth (n : Z) :
  (inject_Z n / 1000000000 == n # 1000000000)%Q /\
  (inject_Z n / 1000000000 * 1000000000 == inject_Z n)%Q.
Proof.
  split.
  - unfold Qeq, Qdiv, Qmult, Qinv, inject_Z. simpl. lia.
  - field.
Qed.

Lemma container_entry_item container d :
  container_entry container d =
  (item <~ container_item container ;; Ok (Py.update d (fst item) (snd item))).
Proof.
  unfold container_entry, container_item, Py.setitem.
  destruct (Py.getitem2 container "cpu" "usageNanoCores") as [nano|]; simpl;
    [| reflexivity].
  destruct (to_cores nano) as [cores|]; simpl; [| reflexivity].
  destruct (Py.getitem container "name") as [name|]; simpl; [| reflexivity].
  now destruct (Py.hashable name).
Qed.

Lemma update_values {V} (d : Py.dict V) k v x :
  In x (map snd (Py.update d k v)) -> x = v \/ In x (map snd d).
Proof.
  induction d as [|[k' v'] d IH]; simpl.
  - intros [H|[]]. now left.
  - destruct (Py.eqb k k'); simpl.
    + intros [H|H]; [now left | right; now right].
    + intros [H|H]; [right; now left |].
      destruct (IH H) as [E|E]; [now left | right; now right].
Qed.

(** Every value of the mapping is [to_cores] of the figure of a container
    the loop went through. *)
Lemma containers_loop_values items : forall d x,
  In x (map snd (fst (containers_loop items d))) ->
  In x (map snd d) \/
  exists container nano,
    In container items /\
    Py.getitem2 container "cpu" "usageNanoCores" = Ok nano /\
    to_cores nano = Ok x.
Proof.
  induction items as [|container items IH]; intros d x; simpl.
  - now left.
  - rewrite container_entry_item. unfold container_item.
    destruct (Py.getitem2 container "cpu" "usageNanoCores") as [nano|] eqn:E1;
      simpl; [| now left].
    destruct (to_cores nano) as [cores|] eqn:E2; simpl; [| now left].
    destruct (Py.getitem container "name") as [name|]; simpl; [| now left].
    destruct (Py.hashable name); simpl; [| now left].
    intros H. destruct (IH _ _ H) as [H'|(c' & n' & Hin & Hc)].
    + destruct (update_values _ _ _ _ H') as [->|H'']; [| now left].
      right. exists container, nano. auto.
    + right. exists c', n'. auto.
Qed.

(** C5.  For every nano-core figure [n >= 0], [to_cores n] is [n] divided
    by 1,000,000,000 exactly (the rational [n / 10^9]; multiplied back by
    [10^9] it is [n]); and the same [to_cores] gives the pod-level figure
    [get_pod_metrics] returns and every value of the container mapping: a
    pod whose [cpu.usageNanoCores] is [n] gets [n / 10^9], a container
    whose figure is [n] is stored with [n / 10^9], and no value of the
    mapping is anything but [to_cores] of the figure of one of the pod's
    containers. *)
Theorem to_cores_divides_by_a_billion (n : Z) :
  (0 <= n)%Z ->
  (exists cores,
     to_cores (JNum (inject_Z n)) = Ok cores /\
     (cores == n # 1000000000)%Q /\
     (cores * 1000000000 == inject_Z n)%Q) /\
  (forall pod name namespace w,
     Py.getitem2 pod "podRef" "name" = Ok name ->
     Py.getitem2 pod "podRef" "namespace" = Ok namespace ->
     Py.getitem2 pod "cpu" "usageNanoCores" = Ok (JNum (inject_Z n)) ->
     exists cores,
       to_cores (JNum (inject_Z n)) = Ok cores /\
       fst (get_pod_metrics pod w) =
       Ok (name, namespace,
           or_zero (Py.getitem2 pod "ephemeral-storage" "usedBytes"),
           cores, fst (container_usage pod))) /\
  (forall container name d,
     Py.getitem2 container "cpu" "usageNanoCores" = Ok (JNum (inject_Z n)) ->
     Py.getitem container "name" = Ok name ->
     Py.hashable name = true ->
     exists cores,
       to_cores (JNum (inject_Z n)) = Ok cores /\
       container_entry container d = Ok (Py.update d name cores)) /\
  (forall pod items x,
     (cs <~ Py.getitem pod "containers" ;; Py.iter cs) = Ok items ->
     In x (map snd (fst (container_usage pod))) ->
     exists container nano,
       In container items /\
       Py.getitem2 container "cpu" "usageNanoCores" = Ok nano /\
       to_cores nano = Ok x).
Proof.
  intros _. repeat split.
  - exists (inject_Z n / 1000000000)%Q.
    split; [reflexivity | apply billionth].
  - intros pod name namespace w H1 H2 H3.
    exists (inject_Z n / 1000000000)%Q. split; [reflexivity |].
    rewrite (get_pod_metrics_identified _ _ _ H1 H2), H3. reflexivity.
  - intros container name d H1 H2 H3.
    exists (inject_Z n / 1000000000)%Q. split; [reflexivity |].
    unfold container_entry. rewrite H1. cbn [rbind].
    rewrite to_cores_number. cbn [rbind]. rewrite H2. cbn [rbind].
    unfold Py.setitem. now rewrite H3.
  - intros pod items x Hitems Hin. unfold container_usage in Hin.
    rewrite Hitems in Hin.
    destruct (containers_loop_values _ _ _ Hin) as [[]|H]. exact H.
Qed.

Lemma to_cores_divides_by_a_billion_witness :
  exists cores,
    to_cores (JNum (inject_Z 500000000)) = Ok cores /\ (cores == 1 # 2)%Q.
Proof.
  destruct (to_cores_divides_by_a_billion 500000000 ltac:(lia))
    as ((cores & H1 & H2 & _) & _).
  exists cores. split; [exact H1 |].
  rewrite H2. reflexivity.
Defined.

(** ** Defaults of a pod record *)

Lemma container_warning_other name err (entry : level * message) :
  In entry (container_warning name err) ->
  exists e, entry = (WARNING, UnableContainerUsage name e).
Proof.
  destruct err as [e|]; simpl; [| contradiction].
  intros [<-|[]]. now exists e.
Qed.

(** C6.  For a pod record whose [podRef] identity is read, the two guarded
    lookups default separately.  When [ephemeral-storage.usedBytes] cannot
    be read (absent, or [ephemeral-storage] not a mapping), [used_bytes] is 0,
    the warning for it is logged, none is logged for the CPU, and
    [usage_cores] is [to_cores] of the [cpu.usageNanoCores] that is there;
    the other way round, when [cpu.usageNanoCores] cannot be read,
    [usage_cores] is [to_cores 0 = 0], with its warning and none for the
    storage, and [used_bytes] is the value that is there; when neither can
    be read both default.  In the three cases the record is returned, with
    the container mapping the third block builds. *)
Theorem storage_and_cpu_default_independently (pod name namespace : json) :
  Py.getitem2 pod "podRef" "name" = Ok name ->
  Py.getitem2 pod "podRef" "namespace" = Ok namespace ->
  (forall e nano cores,
     Py.getitem2 pod "ephemeral-storage" "usedBytes" = Raise e ->
     Py.getitem2 pod "cpu" "usageNanoCores" = Ok nano ->
     to_cores nano = Ok cores ->
     exists d,
       runs (get_pod_metrics pod)
         (Ok (name, namespace, JNum 0, cores, fst (container_usage pod))) d /\
       In (WARNING, UnableUsedBytes name e) (d_logged d) /\
       forall e', ~ In (WARNING, UnableUsageNanoCores name e') (d_logged d)) /\
  (forall e used_bytes,
     Py.getitem2 pod "cpu" "usageNanoCores" = Raise e ->
     Py.getitem2 pod "ephemeral-storage" "usedBytes" = Ok used_bytes ->
     exists d,
       runs (get_pod_metrics pod)
         (Ok (name, namespace, used_bytes, (0 / 1000000000)%Q,
              fst (container_usage pod))) d /\
       In (WARNING, UnableUsageNanoCores name e) (d_logged d) /\
       forall e', ~ In (WARNING, UnableUsedBytes name e') (d_logged d)) /\
  (forall e1 e2,
     Py.getitem2 pod "ephemeral-storage" "usedBytes" = Raise e1 ->
     Py.getitem2 pod "cpu" "usageNanoCores" = Raise e2 ->
     exists d,
       runs (get_pod_metrics pod)
         (Ok (name, namespace, JNum 0, (0 / 1000000000)%Q,
              fst (container_usage pod))) d /\
       In (WARNING, UnableUsedBytes name e1) (d_logged d) /\
       In (WARNING, UnableUsageNanoCores name e2) (d_logged d)) /\
  (0 / 1000000000 == 0)%Q.
Proof.
  intros H1 H2.
  pose proof (get_pod_metrics_identified _ _ _ H1 H2) as H.
  unfold pod_log in H. repeat split.
  - intros e nano cores Hs Hc Hcores.
    rewrite Hs, Hc in H. cbn [or_zero warning_if app] in H.
    rewrite Hcores in H. cbn [rbind] in H.
    eexists. split; [exact H |]. split.
    + simpl. right. now left.
    + intros e' [Hin|[Hin|Hin]]; try discriminate.
      destruct (container_warning_other _ _ _ Hin). discriminate.
  - intros e used_bytes Hc Hs.
    rewrite Hs, Hc in H. cbn [or_zero warning_if app] in H.
    rewrite to_cores_number in H. cbn [rbind] in H.
    eexists. split; [exact H |]. split.
    + simpl. right. now left.
    + intros e' [Hin|[Hin|Hin]]; try discriminate.
      destruct (container_warning_other _ _ _ Hin). discriminate.
  - intros e1 e2 Hs Hc.
    rewrite Hs, Hc in H. cbn [or_zero warning_if app] in H.
    rewrite to_cores_number in H. cbn [rbind] in H.
    eexists. split; [exact H |]. split.
    + simpl. right. now left.
    + simpl. right. right. now left.
Qed.

Lemma storage_and_cpu_default_independently_witness :
  exists d,
    runs (get_pod_metrics pod_without_storage)
      (Ok (JStr "web", JStr "default", JNum 0, (500000000 / 1000000000)%Q,
           fst (container_usage pod_without_storage))) d /\
    In (WARNING, UnableUsedBytes (JStr "web") KeyError) (d_logged d).
Proof.
  destruct (storage_and_cpu_default_independently pod_without_storage
              (JStr "web") (JStr "default") eq_refl eq_refl)
    as (H & _).
  destruct (H KeyError (JNum 500000000) (500000000 / 1000000000)%Q
              eq_refl eq_refl eq_refl) as (d & Hd & Hin & _).
  exists d. split; [exact Hd | exact Hin].
Defined.

(** ** The containers of a pod record *)

(** Anything but a list under ['containers'], or no ['containers'] at all:
    the mapping stays empty. *)
Lemma container_usage_not_a_list pod :
  (forall items, Py.getitem pod "containers" <> Ok (JArr items)) ->
  fst (container_usage pod) = [].
Proof.
  intros H. unfold container_usage.
  destruct (Py.getitem pod "containers") as [v|e]; simpl; [| reflexivity].
  destruct v as [| | |s|items|fields]; simpl; try reflexivity.
  - now destruct s.
  - now destruct (H items).
  - now destruct fields.
Qed.

(** C7.  A pod record with no ['containers'], or with something that is not
    a list under it, yields an empty container mapping, and no entry is made
    up for any container; with its identity read and a pod-level CPU figure
    [to_cores] accepts, the record is returned and [scrape_pod] adds exactly
    one ephemeral-storage series and one pod-CPU series for it, and no
    container series.  When ['containers'] is absent the warning is logged
    once. *)
Theorem absent_containers_give_empty_mapping
  (node_name : string) (pod name namespace : json) (cores : Q) :
  (forall items, Py.getitem pod "containers" <> Ok (JArr items)) ->
  Py.getitem2 pod "podRef" "name" = Ok name ->
  Py.getitem2 pod "podRef" "namespace" = Ok namespace ->
  to_cores (or_zero (Py.getitem2 pod "cpu" "usageNanoCores")) = Ok cores ->
  fst (container_usage pod) = [] /\
  (forall e, Py.getitem pod "containers" = Raise e ->
             container_usage pod = ([], Some e)) /\
  runs (get_pod_metrics pod)
    (Ok (name, namespace,
         or_zero (Py.getitem2 pod "ephemeral-storage" "usedBytes"),
         cores, []))
    (only_log (pod_log pod name)) /\
  exists d,
    runs (scrape_pod node_name pod) (Ok tt) d /\
    d_ephemeral_storage d =
      [([JStr node_name; namespace; name],
        or_zero (Py.getitem2 pod "ephemeral-storage" "usedBytes"))] /\
    d_pod_cpu_usage d = [([JStr node_name; namespace; name], JNum cores)] /\
    d_container_cpu_usage d = [].
Proof.
  intros Hc H1 H2 H3.
  pose proof (container_usage_not_a_list pod Hc) as Hm.
  pose proof (get_pod_metrics_identified _ _ _ H1 H2) as H.
  rewrite H3, Hm in H. cbn [rbind] in H.
  repeat split.
  - exact Hm.
  - intros e He. unfold container_usage. now rewrite He.
  - exact H.
  - eexists. split; [apply (scrape_pod_ok _ _ _ _ H) |].
    repeat split.
Qed.

Lemma absent_containers_give_empty_mapping_witness :
  fst (container_usage pod_without_containers) = [] /\
  exists d,
    runs (scrape_pod "node-1" pod_without_containers) (Ok tt) d /\
    d_ephemeral_storage d =
      [([JStr "node-1"; JStr "default"; JStr "web"], JNum 4096)] /\
    d_pod_cpu_usage d =
      [([JStr "node-1"; JStr "default"; JStr "web"],
        JNum (500000000 / 1000000000))] /\
    d_container_cpu_usage d = [].
Proof.
  assert (Hc : forall items,
             Py.getitem pod_without_containers "containers"
             <> Ok (JArr items)) by (intros items; discriminate).
  destruct (absent_containers_give_empty_mapping "node-1"
              pod_without_containers (JStr "web") (JStr "default")
              (500000000 / 1000000000)%Q Hc eq_refl eq_refl eq_refl)
    as (Hm & _ & _ & Hd).
  split; [exact Hm | exact Hd].
Defined.

(** ** Readiness *)

Lemma in_ready_status_iff node :
  in_ready_status node = true <-> first_ready_is_true (status_conditions node).
Proof.
  unfold in_ready_status, ready_status.
  induction (status_conditions node) as [|a l IH]; simpl.
  - split; [discriminate |].
    intros (before & x & after & E & _). now destruct before.
  - destruct (String.eqb (type_ a) "Ready") eqn:Ea.
    + apply String.eqb_eq in Ea. split.
      * intros Hs. apply String.eqb_eq in Hs.
        exists [], a, l. repeat split; auto.
      * intros ([|b before] & x & after & E & Hb & Hx & Hs).
        -- injection E as -> _. now apply String.eqb_eq.
        -- injection E as <- _. inversion Hb. contradiction.
    + apply String.eqb_neq in Ea. rewrite IH. split.
      * intros (before & x & after & -> & Hb & Hx & Hs).
        exists (a :: before), x, after. repeat split; auto.
      * intros ([|b before] & x & after & E & Hb & Hx & Hs).
        -- injection E as -> _. contradiction.
        -- injection E as _ ->. inversion Hb.
           exists before, x, after. repeat split; auto.
Qed.

Lemma dapp_dnil_r d : dapp d dnil = d.
Proof. destruct d. unfold dapp. simpl. now rewrite !app_nil_r. Qed.

(** The unit of a Ready node after the fetch: what it appends after the
    records of the fetch, and when the "failed to fetch" warning is among
    it. *)
Lemma ready_node_runs c node r1 d1 :
  in_ready_status node = true ->
  runs (get_node_info c (metadata_name node)) r1 d1 ->
  exists r rest,
    runs (scrape_node_metrics c node) r
      (dapp (ready_prologue node) (dapp d1 rest)) /\
    (In (WARNING, FailedToFetch (metadata_name node)) (d_logged rest) ->
     exists node_info, r1 = Ok node_info /\ has_pods node_info = Ok false).
Proof.
  intros Hready H1. destruct r1 as [node_info|e].
  - destruct (has_pods node_info) as [[|]|e] eqn:Hf.
    + destruct (v <~ Py.getitem node_info "pods" ;; Py.iter v)
        as [pods|e] eqn:Hp.
      * destruct (pods_loop_log (metadata_name node) pods)
          as ([[]|e] & d' & Hl & HF).
        -- eexists _, _. split;
             [exact (ready_pods_ok c node Hready _ _ _ _ H1 Hf Hp Hl) |].
           simpl. intros Hin. apply in_app_or in Hin.
           destruct Hin as [Hin|[Hin|[]]]; [| discriminate].
           rewrite Forall_forall in HF. destruct (HF _ Hin).
        -- eexists _, _. split;
             [exact (ready_pods_raise c node Hready _ _ _ _ _ H1 Hf Hp Hl) |].
           intros Hin. rewrite Forall_forall in HF. destruct (HF _ Hin).
      * exists (Raise e), dnil. rewrite dapp_dnil_r. split;
          [exact (ready_iter_raises c node Hready _ _ _ H1 Hf Hp) |].
        intros [].
    + eexists _, _. split;
        [exact (ready_not_found c node Hready _ _ H1 Hf) |].
      intros _. now exists node_info.
    + exists (Raise e), dnil. rewrite dapp_dnil_r. split;
        [exact (ready_test_raises c node Hready _ _ _ H1 Hf) |].
      intros [].
  - exists (Raise e), dnil. rewrite dapp_dnil_r. split;
      [exact (ready_fetch_raises c node Hready _ _ H1) |].
    intros [].
Qed.

(** The fetch always logs that it starts. *)
Lemma get_node_info_logs c node_name :
  exists r d,
    runs (get_node_info c node_name) r d /\
    In (DEBUG, CollectingFromNode node_name) (d_logged d).
Proof.
  destruct (requests_get c node_name) as [response|err] eqn:H.
  - eexists _, _. split; [apply get_node_info_response, H |]. now left.
  - assert (D : err = ConnectTimeout \/ err <> ConnectTimeout)
      by (destruct err; (now left) || (right; discriminate)).
    destruct D as [->|D].
    + eexists _, _. split; [apply get_node_info_connect_timeout, H |].
      now left.
    + eexists _, _. split; [exact (get_node_info_exception _ _ _ H D) |].
      now left.
Qed.

(** C8, the claim as written, fails: a list that contains a ["Ready"] entry
    with status ["True"] after a ["Ready"] entry with another status is not
    scraped, and a list that contains a ["Ready"] entry with a status other
    than ["True"] after one with ["True"] is scraped. *)
Lemma only_first_ready_entry_counts :
  In (mkCondition "Ready" "True") (status_conditions node_ready_false_true) /\
  scrape_node_metrics (answers [node_ready_false_true]) node_ready_false_true
    fresh =
    (Ok tt, mkWorld init [(DEBUG, ProcessingNode "node-1");
                          (WARNING, NotReady "node-1");
                          (DEBUG, FinishedNode "node-1")]) /\
  series_count (fst (collect (answers [node_ready_false_true]) fresh))
    = Some (0, 0, 0)%nat /\
  In (mkCondition "Ready" "False") (status_conditions node_ready_true_false) /\
  series_count (fst (collect (answers [node_ready_true_false]) fresh))
    = Some (1, 1, 2)%nat.
Proof. repeat split; try reflexivity; simpl; auto. Qed.

(** With at most one entry of type ["Ready"], the first one is the only
    one. *)
Lemma single_ready_entry node :
  (List.length (ready_status node) <= 1)%nat ->
  (first_ready_is_true (status_conditions node) <->
   exists x,
     In x (status_conditions node) /\ type_ x = "Ready" /\ status x = "True").
Proof.
  intros Hone. split.
  - intros (before & x & after & E & _ & Hx & Hs).
    exists x. rewrite E. split; [| now split].
    apply in_or_app. right. now left.
  - intros (x & Hin & Hx & Hs). apply in_ready_status_iff.
    assert (Hf : In x (ready_status node)).
    { apply filter_In. split; [exact Hin | now apply String.eqb_eq]. }
    unfold in_ready_status.
    destruct (ready_status node) as [|a [|b l]]; simpl in *.
    + contradiction.
    + destruct Hf as [->|[]]. now apply String.eqb_eq.
    + lia.
Qed.

(** C8, amended.  A node is scraped, that is [get_node_info] is called for
    it, iff the first entry of type ["Ready"] in its status-condition list
    has status exactly ["True"]; a node with no ["Ready"] entry, or whose
    first ["Ready"] entry has another status, is left out with a warning:
    its unit returns and adds no series to any of the three families.  For a
    list with at most one ["Ready"] entry this is the same as containing an
    entry of type ["Ready"] with status ["True"]. *)
Theorem scraped_iff_first_ready_is_true (c : cluster) (node : Node) :
  (exists r d,
     runs (scrape_node_metrics c node) r d /\
     (In (DEBUG, CollectingFromNode (metadata_name node)) (d_logged d) <->
      first_ready_is_true (status_conditions node)) /\
     (~ first_ready_is_true (status_conditions node) ->
      r = Ok tt /\
      d_ephemeral_storage d = [] /\
      d_pod_cpu_usage d = [] /\
      d_container_cpu_usage d = [] /\
      In (WARNING, NotReady (metadata_name node)) (d_logged d))) /\
  ((List.length (ready_status node) <= 1)%nat ->
   (first_ready_is_true (status_conditions node) <->
    exists x,
      In x (status_conditions node) /\
      type_ x = "Ready" /\ status x = "True")).
Proof.
  split; [| apply single_ready_entry].
  destruct (in_ready_status node) eqn:Hready.
  - assert (Hfirst : first_ready_is_true (status_conditions node))
      by now apply in_ready_status_iff.
    destruct (get_node_info_logs c (metadata_name node))
      as (r1 & d1 & H1 & Hlog).
    destruct (ready_node_runs c node r1 d1 Hready H1) as (r & rest & H & _).
    exists r, (dapp (ready_prologue node) (dapp d1 rest)).
    split; [exact H |]. split.
    + split; [auto | intros _].
      simpl. right. right. apply in_or_app. now left.
    + intros Hn. contradiction.
  - assert (Hfirst : ~ first_ready_is_true (status_conditions node))
      by (rewrite <- in_ready_status_iff, Hready; discriminate).
    eexists _, _. split; [exact (scrape_node_metrics_not_ready c node Hready) |].
    split.
    + split; [| intros Hf; contradiction].
      simpl. intros [Hin|[Hin|[Hin|[]]]]; discriminate.
    + intros _. repeat split. simpl. right. now left.
Qed.

(** ** The document a node answers with *)

(** When the membership test answers [False], the document has no ['pods']
    key to read. *)
Lemma has_pods_false node_info :
  has_pods node_info = Ok false ->
  forall v, Py.getitem node_info "pods" <> Ok v.
Proof.
  destruct node_info as [| | | |items|fields]; simpl; try discriminate.
  destruct (Py.assoc "pods" fields); discriminate.
Qed.

(** C9.  [get_node_info] returns the decoded body of the response and never
    looks at the status code: whatever the code, a response whose body
    decodes to [document] makes it return [document].  On a Ready node such
    a document is skipped (the "failed to fetch" warning) only when it has
    no ['pods'] key: with a ['pods'] key the warning is not logged. *)
Theorem body_is_returned_whatever_the_status
  (c : cluster) (node : Node) (code : Z) (document : json) :
  requests_get c (metadata_name node) = Ok (mkResponse code (Some document)) ->
  runs (get_node_info c (metadata_name node)) (Ok document)
    (only_log [(DEBUG, CollectingFromNode (metadata_name node));
               (DEBUG, ResponseReceived (metadata_name node))]) /\
  (in_ready_status node = true ->
   exists r d,
     runs (scrape_node_metrics c node) r d /\
     (In (WARNING, FailedToFetch (metadata_name node)) (d_logged d) ->
      forall v, Py.getitem document "pods" <> Ok v)).
Proof.
  intros Hget.
  pose proof (get_node_info_response c _ _ Hget) as H1. simpl in H1.
  split; [exact H1 | intros Hready].
  destruct (ready_node_runs c node _ _ Hready H1) as (r & rest & H & Hskip).
  eexists _, _. split; [exact H |].
  simpl. intros [Hin|[Hin|[Hin|[Hin|Hin]]]]; try discriminate.
  destruct (Hskip Hin) as (node_info & E & Hf).
  injection E as <-. now apply has_pods_false.
Qed.

Lemma body_is_returned_whatever_the_status_witness :
  runs (get_node_info unavailable "node-1")
    (Ok (JObj [("kind", JStr "Status");
               ("message", JStr "service unavailable");
               ("code", JNum 503)]))
    (only_log [(DEBUG, CollectingFromNode "node-1");
               (DEBUG, ResponseReceived "node-1")]).
Proof.
  exact (proj1 (body_is_returned_whatever_the_status unavailable node1 503
                  (JObj [("kind", JStr "Status");
                         ("message", JStr "service unavailable");
                         ("code", JNum 503)]) eq_refl)).
Defined.

(** ** A malformed container in the middle of the list *)

Lemma containers_loop_stops before bad after e : forall d,
  Forall (fun container => is_ok (container_item container) = true) before ->
  container_item bad = Raise e ->
  containers_loop (before ++ bad :: after) d = (stored before d, Some e).
Proof.
  induction before as [|container before IH]; intros d Hgood Hbad; simpl.
  - now rewrite container_entry_item, Hbad.
  - inversion Hgood as [|? ? Hc Hrest]; subst.
    rewrite container_entry_item.
    destruct (container_item container) as [[name cores]|]; [| discriminate].
    simpl. now apply IH.
Qed.

Lemma eqb_refl_hashable k : Py.hashable k = true -> Py.eqb k k = true.
Proof.
  destruct k as [|b|q|s| |]; simpl; try discriminate; intros _.
  - reflexivity.
  - destruct b; reflexivity.
  - apply Qeq_bool_iff. reflexivity.
  - apply String.eqb_refl.
Qed.

Lemma update_keeps_keys {V} (d : Py.dict V) k v k0 :
  In k0 (map fst d) -> In k0 (map fst (Py.update d k v)).
Proof.
  induction d as [|[k' v'] d IH]; simpl; [contradiction |].
  destruct (Py.eqb k k'); simpl; intros [H|H]; auto.
Qed.

Lemma update_has_key {V} (d : Py.dict V) k v :
  Py.eqb k k = true ->
  exists k', In k' (map fst (Py.update d k v)) /\ Py.eqb k k' = true.
Proof.
  intros Hk. induction d as [|[k' v'] d (k0 & Hin & E)]; simpl.
  - exists k. auto.
  - destruct (Py.eqb k k') eqn:Ek; simpl.
    + exists k'. auto.
    + exists k0. auto.
Qed.

Lemma stored_keeps_keys containers : forall d k0,
  In k0 (map fst d) -> In k0 (map fst (stored containers d)).
Proof.
  induction containers as [|container containers IH]; intros d k0 H; simpl.
  - exact H.
  - apply IH. destruct (container_item container) as [[name cores]|]; auto.
    now apply update_keeps_keys.
Qed.

(** Every well-formed container of the list has its name among the keys. *)
Lemma stored_has_key containers : forall d container name cores,
  In container containers ->
  container_item container = Ok (name, cores) ->
  exists key,
    In key (map fst (stored containers d)) /\ Py.eqb name key = true.
Proof.
  induction containers as [|c0 containers IH];
    intros d container name cores Hin Hitem; [contradiction |].
  simpl. destruct Hin as [->|Hin].
  - rewrite Hitem.
    assert (Hh : Py.hashable name = true).
    { unfold container_item in Hitem.
      destruct (Py.getitem2 container "cpu" "usageNanoCores") as [nano|];
        simpl in Hitem; [| discriminate].
      destruct (to_cores nano); simpl in Hitem; [| discriminate].
      destruct (Py.getitem container "name") as [n|]; simpl in Hitem;
        [| discriminate].
      destruct (Py.hashable n) eqn:En; [| discriminate].
      now injection Hitem as -> _. }
    destruct (update_has_key d name cores (eqb_refl_hashable _ Hh))
      as (key & Hkey & E).
    exists key. split; [| exact E]. now apply stored_keeps_keys.
  - eapply IH; eassumption.
Qed.

Lemma stored_nonempty containers : forall d,
  d <> [] -> stored containers d <> [].
Proof.
  induction containers as [|container containers IH]; intros d H; simpl; auto.
  apply IH. destruct (container_item container) as [[name cores]|]; auto.
  destruct d as [|[k' v'] d]; [congruence |]. simpl.
  destruct (Py.eqb name k'); discriminate.
Qed.

Lemma containers_loop_all_good items : forall d,
  Forall (fun container => is_ok (container_item container) = true) items ->
  containers_loop items d = (stored items d, None).
Proof.
  induction items as [|container items IH]; intros d Hgood; simpl.
  - reflexivity.
  - inversion Hgood as [|? ? Hc Hrest]; subst.
    rewrite container_entry_item.
    destruct (container_item container) as [[name cores]|]; [| discriminate].
    simpl. now apply IH.
Qed.

(** C10.  When ['containers'] is a list with a malformed entry in it, the
    containers before it being well formed, the mapping is the one built
    from the containers before it: each of them has its name among the keys,
    every value is [to_cores] of the figure of one of them, so neither the
    malformed entry nor any container after it is in the mapping, which is
    not empty as soon as one container comes before; the exception of the
    malformed entry is logged as the one warning of the block, and this
    mapping is what [get_pod_metrics] returns. *)
Theorem malformed_container_keeps_the_ones_before
  (pod : json) (before : list json) (bad : json) (after : list json)
  (e : exn) :
  Py.getitem pod "containers" = Ok (JArr (before ++ bad :: after)) ->
  Forall (fun container => is_ok (container_item container) = true) before ->
  container_item bad = Raise e ->
  container_usage pod = (stored before [], Some e) /\
  (forall container name cores,
     In container before ->
     container_item container = Ok (name, cores) ->
     exists key,
       In key (map fst (stored before [])) /\ Py.eqb name key = true) /\
  (forall x,
     In x (map snd (stored before [])) ->
     exists container nano,
       In container before /\
       Py.getitem2 container "cpu" "usageNanoCores" = Ok nano /\
       to_cores nano = Ok x) /\
  (before <> [] -> stored before [] <> []) /\
  (forall name namespace cores,
     Py.getitem2 pod "podRef" "name" = Ok name ->
     Py.getitem2 pod "podRef" "namespace" = Ok namespace ->
     to_cores (or_zero (Py.getitem2 pod "cpu" "usageNanoCores")) = Ok cores ->
     exists d,
       runs (get_pod_metrics pod)
         (Ok (name, namespace,
              or_zero (Py.getitem2 pod "ephemeral-storage" "usedBytes"),
              cores, stored before [])) d /\
       In (WARNING, UnableContainerUsage name e) (d_logged d)).
Proof.
  intros Hget Hgood Hbad.
  assert (Husage : container_usage pod = (stored before [], Some e)).
  { unfold container_usage. rewrite Hget. simpl.
    now apply containers_loop_stops. }
  repeat split.
  - exact Husage.
  - intros container name cores Hin Hitem.
    eapply stored_has_key; eassumption.
  - intros x Hin.
    pose proof (containers_loop_values before [] x) as H.
    rewrite (containers_loop_all_good before [] Hgood) in H.
    destruct (H Hin) as [[]|H']. exact H'.
  - intros Hne. destruct before as [|container before]; [congruence |].
    inversion Hgood as [|? ? Hc Hrest]; subst. simpl.
    destruct (container_item container) as [[name cores]|]; [| discriminate].
    apply stored_nonempty. discriminate.
  - intros name namespace cores H1 H2 H3.
    pose proof (get_pod_metrics_identified _ _ _ H1 H2) as H.
    unfold pod_log in H. rewrite H3, Husage in H. cbn [rbind fst snd] in H.
    eexists. split; [exact H |].
    simpl. right. apply in_or_app. right. apply in_or_app. right. now left.
Qed.

Lemma malformed_container_keeps_the_ones_before_witness :
  container_usage pod_bad_container =
  ([(JStr "app", (250000000 / 1000000000)%Q)], Some KeyError).
Proof.
  refine (proj1 (malformed_container_keeps_the_ones_before pod_bad_container
                   [container "app" 250000000]
                   (JObj [("name", JStr "init")])
                   [container "sidecar" 1000] KeyError eq_refl _ eq_refl)).
  constructor; [reflexivity | constructor].
Defined.

Lemma scraped_iff_first_ready_is_true_witness :
  first_ready_is_true (status_conditions node1) <->
  exists x,
    In x (status_conditions node1) /\ type_ x = "Ready" /\ status x = "True".
Proof.
  apply (proj2 (scraped_iff_first_ready_is_true no_nodes node1)).
  simpl. lia.
Defined.

(** ** Further properties of the fetch *)

(** X1.  A body that does not decode: [response.json()] stands outside the [try]
    of [get_node_info], so its exception leaves the function, the unit of
    a Ready node, and the cycle. *)
Theorem undecodable_body_aborts_cycle
  (c : cluster) (node : Node) (response : Response) (w : world) :
  In node (list_node c) ->
  in_ready_status node = true ->
  requests_get c (metadata_name node) = Ok response ->
  json_body response = None ->
  runs (get_node_info c (metadata_name node)) (Raise JSONDecodeError)
    (only_log [(DEBUG, CollectingFromNode (metadata_name node));
               (DEBUG, ResponseReceived (metadata_name node))]) /\
  outcome c node = Raise JSONDecodeError /\
  exists e, fst (collect c w) = Raise e.
Proof.
  intros Hin Hready Hget Hbody.
  pose proof (get_node_info_response c _ _ Hget) as H1.
  rewrite Hbody in H1.
  assert (Hout : outcome c node = Raise JSONDecodeError).
  { unfold outcome. now rewrite (ready_fetch_raises c node Hready _ _ H1). }
  repeat split; [exact H1 | exact Hout |].
  eapply collect_raises_with_unit; eassumption.
Qed.

Lemma undecodable_body_aborts_cycle_witness :
  outcome not_json node1 = Raise JSONDecodeError /\
  exists e, fst (collect not_json fresh) = Raise e.
Proof.
  refine (proj2 (undecodable_body_aborts_cycle not_json node1
                   (mkResponse 200 None) fresh _ eq_refl eq_refl eq_refl)).
  simpl. now left.
Defined.

(** X2.  Any exception of [requests.get] other than [ConnectTimeout]: the fetch
    returns [None], and the unit of a Ready node logs the two warnings,
    adds no series and returns. *)
Theorem failed_request_skips_node (c : cluster) (node : Node) (err : exn) :
  in_ready_status node = true ->
  requests_get c (metadata_name node) = Raise err ->
  err <> ConnectTimeout ->
  runs (get_node_info c (metadata_name node)) (Ok JNull)
    (only_log [(DEBUG, CollectingFromNode (metadata_name node));
               (WARNING, UnableToRequest (metadata_name node) err)]) /\
  runs (scrape_node_metrics c node) (Ok tt)
    (only_log [(DEBUG, ProcessingNode (metadata_name node));
               (DEBUG, NodeStatus (metadata_name node) (status_0 node));
               (DEBUG, CollectingFromNode (metadata_name node));
               (WARNING, UnableToRequest (metadata_name node) err);
               (WARNING, FailedToFetch (metadata_name node));
               (DEBUG, FinishedNode (metadata_name node))]) /\
  outcome c node = Ok tt.
Proof.
  intros Hready Hget Hne.
  pose proof (get_node_info_exception c _ _ Hget Hne) as H1.
  pose proof (ready_not_found c node Hready JNull _ H1 eq_refl) as H.
  repeat split; [exact H1 | exact H |].
  unfold outcome. now rewrite H.
Qed.

Lemma failed_request_skips_node_witness :
  outcome one_refuses node2 = Ok tt.
Proof.
  refine (proj2 (proj2 (failed_request_skips_node one_refuses node2
                          ConnectionError eq_refl eq_refl _))).
  discriminate.
Defined.

(** X3.  A decoded document that is not an object (a list, a string, a number,
    a boolean, [null]) never gives a series: the unit of a Ready node
    either logs the "failed to fetch" warning and returns, or raises
    [TypeError] (from the membership test, or from [node_info['pods']] when
    a list or a string does contain ["pods"]). *)
Theorem document_not_an_object
  (c : cluster) (node : Node) (code : Z) (document : json) :
  in_ready_status node = true ->
  requests_get c (metadata_name node) = Ok (mkResponse code (Some document)) ->
  (forall fields, document <> JObj fields) ->
  exists r d,
    runs (scrape_node_metrics c node) r d /\
    (r = Ok tt /\
       In (WARNING, FailedToFetch (metadata_name node)) (d_logged d) \/
     r = Raise TypeError) /\
    d_ephemeral_storage d = [] /\
    d_pod_cpu_usage d = [] /\
    d_container_cpu_usage d = [].
Proof.
  intros Hready Hget Hobj.
  pose proof (get_node_info_response c _ _ Hget) as H1. simpl in H1.
  destruct (has_pods document) as [[|]|e] eqn:Hf.
  - assert (Hp : (v <~ Py.getitem document "pods" ;; Py.iter v)
                 = Raise TypeError).
    { destruct document; try reflexivity; try discriminate.
      now destruct (Hobj fields). }
    eexists _, _. split;
      [exact (ready_iter_raises c node Hready _ _ _ H1 Hf Hp) |].
    repeat split. now right.
  - eexists _, _. split; [exact (ready_not_found c node Hready _ _ H1 Hf) |].
    repeat split. left. split; [reflexivity |].
    simpl. right. right. right. right. now left.
  - assert (e = TypeError) as ->.
    { destruct document as [| | | | |fields]; simpl in Hf;
        try discriminate; congruence. }
    eexists _, _. split;
      [exact (ready_test_raises c node Hready _ _ _ H1 Hf) |].
    repeat split. now right.
Qed.

Lemma document_not_an_object_witness :
  outcome answers_list node1 = Raise TypeError.
Proof.
  destruct (document_not_an_object answers_list node1 200
              (JArr [JStr "pods"; JStr "nodes"]) eq_refl eq_refl)
    as (r & d & H & _).
  - intros fields. discriminate.
  - unfold outcome. rewrite H.
    exact (runs_fun _ _ _ _ _ H
             (ready_iter_raises answers_list node1 eq_refl _ _ TypeError
                (get_node_info_response answers_list "node-1" _ eq_refl)
                eq_refl eq_refl)).
Defined.

(** ** Further properties of the parser *)

(** X4.  A pod-level [cpu.usageNanoCores] that is there but is not a number is
    not defaulted: the guarded block succeeds, and the [to_cores] of the
    [return] statement raises [TypeError] after the three blocks have run,
    so nothing is added for the pod. *)
Theorem cpu_not_a_number_raises
  (node_name : string) (pod name namespace value : json) :
  Py.getitem2 pod "podRef" "name" = Ok name ->
  Py.getitem2 pod "podRef" "namespace" = Ok namespace ->
  Py.getitem2 pod "cpu" "usageNanoCores" = Ok value ->
  Py.as_number value = None ->
  runs (get_pod_metrics pod) (Raise TypeError) (only_log (pod_log pod name)) /\
  runs (scrape_pod node_name pod) (Raise TypeError)
    (only_log (pod_log pod name)) /\
  forall e, ~ In (WARNING, UnableUsageNanoCores name e) (pod_log pod name).
Proof.
  intros H1 H2 H3 H4.
  pose proof (get_pod_metrics_identified _ _ _ H1 H2) as H.
  rewrite H3 in H. cbn [or_zero] in H. unfold to_cores, Py.truediv in H.
  rewrite H4 in H. cbn [rbind] in H.
  repeat split; [exact H | exact (scrape_pod_raise _ _ _ _ H) |].
  unfold pod_log. rewrite H3. intros e [Hin|Hin]; [discriminate |].
  apply in_app_or in Hin. destruct Hin as [Hin|Hin].
  - destruct (Py.getitem2 pod "ephemeral-storage" "usedBytes");
      simpl in Hin; [contradiction |]. destruct Hin as [Hin|[]]. discriminate.
  - simpl in Hin.
    destruct (container_warning_other _ _ _ Hin). discriminate.
Qed.

Lemma cpu_not_a_number_raises_witness :
  runs (get_pod_metrics pod_cpu_string) (Raise TypeError)
    (only_log (pod_log pod_cpu_string (JStr "web"))).
Proof.
  exact (proj1 (cpu_not_a_number_raises "node-1" pod_cpu_string (JStr "web")
                  (JStr "default") (JStr "500000000")
                  eq_refl eq_refl eq_refl eq_refl)).
Defined.




(** ** Invariants of the unit of a node *)

Section Keeps.

Variable P : delta -> Prop.
Hypothesis P_dapp : forall d1 d2, P d1 -> P d2 -> P (dapp d1 d2).
Hypothesis P_log : forall lg, P (only_log lg).

Lemma keeps_ret {A} (a : A) : keeps P (ret a).
Proof. exists (Ok a), dnil. split; [apply runs_ret | apply (P_log [])]. Qed.

Lemma keeps_eval {A} (r : result A) : keeps P (eval r).
Proof. exists r, dnil. split; [apply runs_eval | apply (P_log [])]. Qed.

Lemma keeps_logger l msg : keeps P (logger l msg).
Proof.
  exists (Ok tt), (dlog l msg).
  split; [apply runs_logger | apply (P_log [(l, msg)])].
Qed.

Lemma keeps_bind {A B} (m : M A) (k : A -> M B) :
  keeps P m -> (forall a, keeps P (k a)) -> keeps P (bind m k).
Proof.
  intros (r & d & Hm & Hd) Hk. destruct r as [a|e].
  - destruct (Hk a) as (r' & d' & Hk' & Hd').
    exists r', (dapp d d'). split; [| now apply P_dapp].
    eapply runs_bind_ok; eassumption.
  - exists (Raise e), d. split; [| exact Hd]. now apply runs_bind_raise.
Qed.

Lemma keeps_for_each {A} (body : A -> M unit) items :
  (forall x, keeps P (body x)) -> keeps P (for_each body items).
Proof.
  intros Hb. induction items as [|x rest IH]; simpl.
  - apply keeps_ret.
  - apply keeps_bind; [apply Hb | intros _; exact IH].
Qed.

Lemma keeps_get_pod_metrics pod : keeps P (get_pod_metrics pod).
Proof.
  destruct (Py.getitem2 pod "podRef" "name") as [name|e] eqn:H1.
  - destruct (Py.getitem2 pod "podRef" "namespace") as [namespace|e] eqn:H2.
    + eexists _, _. split;
        [exact (get_pod_metrics_identified _ _ _ H1 H2) | apply P_log].
    + eexists _, _. split;
        [exact (get_pod_metrics_no_namespace _ _ _ H1 H2) | apply P_log].
  - eexists _, _. split;
      [exact (get_pod_metrics_no_name _ _ H1) | apply P_log].
Qed.

Lemma keeps_get_node_info c node_name : keeps P (get_node_info c node_name).
Proof.
  destruct (requests_get c node_name) as [response|err] eqn:H.
  - eexists _, _. split; [apply get_node_info_response, H | apply P_log].
  - assert (D : err = ConnectTimeout \/ err <> ConnectTimeout)
      by (destruct err; (now left) || (right; discriminate)).
    destruct D as [->|D].
    + eexists _, _. split;
        [apply get_node_info_connect_timeout, H | apply P_log].
    + eexists _, _. split;
        [exact (get_node_info_exception _ _ _ H D) | apply P_log].
Qed.

Variable c : cluster.
Variable node : Node.
Hypothesis P_pod : forall metrics, P (pod_calls (metadata_name node) metrics).

Lemma keeps_scrape_pod pod : keeps P (scrape_pod (metadata_name node) pod).
Proof.
  destruct (keeps_get_pod_metrics pod) as ([metrics|e] & d & H & Hd).
  - eexists _, _. split; [apply scrape_pod_ok, H |]. now apply P_dapp.
  - eexists _, _. split; [apply scrape_pod_raise, H | exact Hd].
Qed.

Lemma keeps_scrape_node_metrics : keeps P (scrape_node_metrics c node).
Proof.
  unfold scrape_node_metrics.
  apply keeps_bind; [apply keeps_logger | intros _].
  apply keeps_bind; [| intros _; apply keeps_logger].
  destruct (in_ready_status node); [| apply keeps_logger].
  apply keeps_bind; [apply keeps_logger | intros _].
  apply keeps_bind; [apply keeps_get_node_info | intros node_info].
  apply keeps_bind; [apply keeps_eval | intros [|]].
  - apply keeps_bind; [apply keeps_eval | intros pods].
    apply keeps_for_each, keeps_scrape_pod.
  - apply keeps_logger.
Qed.

End Keeps.

Lemma well_formed_calls_dapp N d1 d2 :
  well_formed_calls N d1 -> well_formed_calls N d2 ->
  well_formed_calls N (dapp d1 d2).
Proof.
  intros (A1 & B1 & C1 & D1 & E1) (A2 & B2 & C2 & D2 & E2).
  unfold well_formed_calls. simpl. rewrite !map_app, A1, A2.
  repeat split; apply Forall_app; now split.
Qed.

Lemma well_formed_calls_log N lg : well_formed_calls N (only_log lg).
Proof. repeat split; constructor. Qed.


Lemma well_formed_calls_pod node_name metrics :
  well_formed_calls (eq node_name) (pod_calls node_name metrics).
Proof.
  destruct metrics as [[[[name namespace] used_bytes] usage_cores] m].
  unfold well_formed_calls, pod_calls, container_calls. simpl.
  repeat split.
  - constructor; [| constructor]. split; [reflexivity |]. now exists node_name.
  - apply Forall_forall. intros call Hin. apply in_map_iff in Hin.
    destruct Hin as ([k x] & <- & _). split; [reflexivity |].
    now exists node_name.
  - constructor; [| constructor]. now exists usage_cores.
  - apply Forall_forall. intros call Hin. apply in_map_iff in Hin.
    destruct Hin as ([k x] & <- & _). now exists x.
Qed.

Lemma unit_invariant_kept c node :
  keeps (unit_invariant (metadata_name node)) (scrape_node_metrics c node).
Proof.
  apply keeps_scrape_node_metrics.
  - intros d1 d2 [F1 W1] [F2 W2]. split.
    + simpl. now rewrite F1, F2.
    + now apply well_formed_calls_dapp.
  - intros lg. split; [reflexivity | apply well_formed_calls_log].
  - intros metrics. split; [| apply well_formed_calls_pod].
    now destruct metrics as [[[[name namespace] used_bytes] usage_cores] m].
Qed.

(** X6.  The unit of a node only appends, and what it appends does not depend on
    what the collector holds: it leaves the list of futures alone; it adds
    the ephemeral-storage and the pod-CPU series in pairs with the same
    label values, also when it raises half way; every series has the label
    values of its family (three, or four for a container), the first of
    them the name of this node; and every CPU value is a number. *)
Theorem unit_keeps_invariant (c : cluster) (node : Node) :
  exists r d,
    (forall w, scrape_node_metrics c node w = (r, extend w d)) /\
    d_futures d = [] /\
    map fst (d_ephemeral_storage d) = map fst (d_pod_cpu_usage d) /\
    Forall (labelled (eq (metadata_name node)) 3) (d_ephemeral_storage d) /\
    Forall (labelled (eq (metadata_name node)) 4) (d_container_cpu_usage d) /\
    Forall numeric (d_pod_cpu_usage d) /\
    Forall numeric (d_container_cpu_usage d).
Proof.
  destruct (unit_invariant_kept c node) as (r & d & H & Hf & Hw).
  exists r, d. split; [exact H |]. split; [exact Hf | exact Hw].
Qed.

(** ** Further properties of the cycle *)

(** X8.  Whatever the units do, every node gets its future: after [collect] the
    list of futures is the one before followed by the outcome of the unit
    of every listed node, in the order of the list; a unit that raised does
    not stop the submission of the others. *)
Theorem every_node_gets_a_future (c : cluster) (w : world) :
  futures (self (snd (collect c w))) =
  futures (self w) ++ map (outcome c) (list_node c).
Proof.
  destruct (list_node c) as [|n ns] eqn:E.
  - rewrite (collect_no_nodes c E). simpl. now rewrite !app_nil_r.
  - assert (Hne : list_node c <> []) by (rewrite E; discriminate).
    rewrite <- E. destruct (collect_spec c Hne) as (D & HF & Hc).
    rewrite Hc, <- HF.
    destruct (first_failure (futures (self w) ++ d_futures D));
      simpl; now rewrite ?app_nil_r.
Qed.

(** X9.  With at least one node, [collect] raises the exception of the first
    failed future, the futures of earlier cycles first and then the units
    of this cycle in the order of the node list; it yields the three
    families, as the collector holds them at the end, exactly when no
    future failed. *)
Theorem collect_raises_first_failure (c : cluster) (w : world) :
  list_node c <> [] ->
  fst (collect c w) =
  match first_failure (futures (self w) ++ map (outcome c) (list_node c)) with
  | Ok _ => Ok (yielded (snd (collect c w)))
  | Raise e => Raise e
  end.
Proof.
  intros Hne. destruct (collect_spec c Hne) as (D & HF & Hc).
  rewrite Hc, <- HF.
  now destruct (first_failure (futures (self w) ++ d_futures D)).
Qed.

Lemma collect_raises_first_failure_witness :
  fst (collect nameless_pod fresh) = Raise KeyError.
Proof.
  refine (eq_trans (collect_raises_first_failure nameless_pod fresh _) _).
  - discriminate.
  - reflexivity.
Defined.

(** X10.  A collector that holds a failed future never yields again: the list of
    futures is never emptied, so every later [collect] raises, whatever the
    cluster has become. *)
Theorem failed_future_poisons_collector (c : cluster) (w : world) (e : exn) :
  In (Raise e) (futures (self w)) ->
  exists e', fst (collect c w) = Raise e'.
Proof.
  intros Hin. destruct (list_node c) as [|n ns] eqn:E.
  - exists ValueError. now rewrite (collect_no_nodes c E).
  - assert (Hne : list_node c <> []) by (rewrite E; discriminate).
    destruct (collect_spec c Hne) as (D & HF & Hc). rewrite Hc.
    destruct (first_failure_raise (futures (self w) ++ d_futures D) e)
      as (e' & He'); [apply in_or_app; now left |].
    exists e'. now rewrite He'.
Qed.

Lemma failed_future_poisons_collector_witness :
  exists e', fst (collect single (snd (collect one_times_out fresh)))
             = Raise e'.
Proof.
  apply (failed_future_poisons_collector single
           (snd (collect one_times_out fresh)) UnboundLocalError).
  simpl. right. now left.
Defined.

(** X11.  [collect] never removes or rewrites a series: whatever its outcome,
    each family keeps its name, documentation and label names, and its
    samples after the call are its samples before followed by new ones. *)
Theorem collect_only_appends (c : cluster) (w : world) :
  exists calls_e calls_p calls_k,
    ephemeral_storage_metric (self (snd (collect c w))) =
      add_all (ephemeral_storage_metric (self w)) calls_e /\
    pod_cpu_usage_metric (self (snd (collect c w))) =
      add_all (pod_cpu_usage_metric (self w)) calls_p /\
    container_cpu_usage_metric (self (snd (collect c w))) =
      add_all (container_cpu_usage_metric (self w)) calls_k /\
    samples (ephemeral_storage_metric (self (snd (collect c w)))) =
      samples (ephemeral_storage_metric (self w))
      ++ map (sample_of (ephemeral_storage_metric (self w))) calls_e /\
    samples (pod_cpu_usage_metric (self (snd (collect c w)))) =
      samples (pod_cpu_usage_metric (self w))
      ++ map (sample_of (pod_cpu_usage_metric (self w))) calls_p /\
    samples (container_cpu_usage_metric (self (snd (collect c w)))) =
      samples (container_cpu_usage_metric (self w))
      ++ map (sample_of (container_cpu_usage_metric (self w))) calls_k.
Proof.
  assert (H : exists d, snd (collect c w) = extend w d).
  { destruct (list_node c) as [|n ns] eqn:E.
    - eexists. now rewrite (collect_no_nodes c E).
    - assert (Hne : list_node c <> []) by (rewrite E; discriminate).
      destruct (collect_spec c Hne) as (D & HF & Hc). rewrite Hc.
      destruct (first_failure (futures (self w) ++ d_futures D));
        eexists; reflexivity. }
  destruct H as (d & ->).
  exists (d_ephemeral_storage d), (d_pod_cpu_usage d),
    (d_container_cpu_usage d).
  simpl. rewrite !samples_add_all. repeat split.
Qed.

Lemma scrape_pod_count node_name pod :
  exists r d,
    runs (scrape_pod node_name pod) r d /\
    (r = Ok tt ->
     List.length (d_ephemeral_storage d) = 1%nat /\
     List.length (d_pod_cpu_usage d) = 1%nat).
Proof.
  set (P := fun d => d_ephemeral_storage d = [] /\ d_pod_cpu_usage d = []).
  assert (P_log : forall lg, P (only_log lg)) by (intros lg; now split).
  destruct (keeps_get_pod_metrics P P_log pod)
    as ([metrics|e] & d & H & He & Hp).
  - eexists _, _. split; [apply scrape_pod_ok, H |]. intros _.
    destruct metrics as [[[[name namespace] used_bytes] usage_cores] m].
    simpl. now rewrite He, Hp.
  - eexists _, _. split; [apply scrape_pod_raise, H |]. discriminate.
Qed.

Lemma pods_loop_count node_name pods :
  exists r d,
    runs (for_each (scrape_pod node_name) pods) r d /\
    (r = Ok tt ->
     List.length (d_ephemeral_storage d) = List.length pods /\
     List.length (d_pod_cpu_usage d) = List.length pods).
Proof.
  induction pods as [|pod pods (r & d & H & Hc)].
  - exists (Ok tt), dnil. split; [apply runs_ret | now split].
  - destruct (scrape_pod_count node_name pod) as ([[]|e] & d0 & H0 & Hc0).
    + exists r, (dapp d0 d). split.
      * simpl for_each. eapply runs_bind_ok; eassumption.
      * intros Hr. destruct (Hc Hr) as [A B].
        destruct (Hc0 eq_refl) as [A0 B0].
        simpl. rewrite !length_app, A, B, A0, B0. now split.
    + exists (Raise e), d0. split; [| discriminate].
      simpl for_each. now apply runs_bind_raise.
Qed.

(** X7.  When the unit of a Ready node returns, the document it fetched having a
    list under ['pods'], it has added exactly one ephemeral-storage series
    and one pod-CPU series for each pod of the list. *)
Theorem one_pair_of_series_per_pod
  (c : cluster) (node : Node) (response : Response)
  (fields : list (string * json)) (pods : list json) :
  in_ready_status node = true ->
  requests_get c (metadata_name node) = Ok response ->
  json_body response = Some (JObj fields) ->
  Py.assoc "pods" fields = Some (JArr pods) ->
  outcome c node = Ok tt ->
  exists d,
    runs (scrape_node_metrics c node) (Ok tt) d /\
    List.length (d_ephemeral_storage d) = List.length pods /\
    List.length (d_pod_cpu_usage d) = List.length pods.
Proof.
  intros Hready Hget Hbody Hpods Hout.
  pose proof (get_node_info_response c _ _ Hget) as Hinfo.
  rewrite Hbody in Hinfo.
  assert (Hfound : has_pods (JObj fields) = Ok true)
    by (simpl; now rewrite Hpods).
  assert (Hiter : (v <~ Py.getitem (JObj fields) "pods" ;; Py.iter v)
                  = Ok pods) by (simpl; now rewrite Hpods).
  destruct (pods_loop_count (metadata_name node) pods)
    as ([[]|e] & d & Hloop & Hc).
  - eexists. split;
      [exact (ready_pods_ok c node Hready _ _ _ _ Hinfo Hfound Hiter Hloop) |].
    destruct (Hc eq_refl) as [A B]. simpl.
    rewrite !length_app, A, B. simpl. split; lia.
  - pose proof (ready_pods_raise c node Hready _ _ _ _ _
                  Hinfo Hfound Hiter Hloop) as Hrun.
    unfold outcome in Hout. rewrite Hrun in Hout. discriminate.
Qed.

Lemma one_pair_of_series_per_pod_witness :
  exists d,
    runs (scrape_node_metrics nameless_pod node2) (Ok tt) d /\
    List.length (d_ephemeral_storage d) = 1%nat /\
    List.length (d_pod_cpu_usage d) = 1%nat.
Proof.
  exact (one_pair_of_series_per_pod nameless_pod node2 (summary [pod_db])
           [("pods", JArr [pod_db])] [pod_db]
           eq_refl eq_refl eq_refl eq_refl eq_refl).
Defined.








